(** * pcflib/betteryao/garbled_circuit_m.h

    A shallow embedding of the garbled-circuit session state
    [garbled_circuit_m_t] and of the inline operations the header defines
    on it: [trim_output], [recv], [send], [pass_check] and [init].

    Conventions.
    - Unsigned machine integers ([uint32_t], [uint64_t], [size_t]) are
      numbers in [N]; where the source computes on them the wrap-around
      of the C type is written out.
    - A 128-bit SSE register ([__m128i]) is a number in [N] below [2^128],
      byte 0 of the memory image being the least significant one.
    - A [Bytes] object is a list of 8-bit bytes.
    - An operation that can leave defined behaviour (a failed [assert], an
      access outside a container) returns [option]; [None] is the abort. *)

From Stdlib Require Import NArith Strings.Byte List Lia.
From stdpp Require Import base decidable option list numbers.

#[global] Instance byte_eq_dec : EqDecision byte := Byte.byte_eq_dec.

Local Open Scope N_scope.

(** ** Machine arithmetic *)

Definition UINT32_MOD : N := 2 ^ 32.

(** [a + b] on [uint32_t] operands. *)
Definition add32 (a b : N) : N := (a + b) mod UINT32_MOD.

(** The mathematical ceiling of [n / 8], with no machine width. *)
Definition ceil_div8 (n : N) : N :=
  n / 8 + (if n mod 8 =? 0 then 0 else 1).

(** ** Single bytes *)

(** The byte holding the low eight bits of [n]. *)
Definition byte_of_N (n : N) : byte :=
  match Byte.of_N (n mod 256) with
  | Some b => b
  | None => x00
  end.

(** Bit [j] of the byte [b] forced to [v]; [j] is a position in [0..7]. *)
Definition byte_set_bit (b : byte) (j : N) (v : bool) : byte :=
  byte_of_N (if v then N.setbit (Byte.to_N b) j else N.clearbit (Byte.to_N b) j).

(** ** The [Bytes] container *)

(** Modelled from the spec: the class [Bytes] (Bytes.h) is used by the
    header but is not among the sources.  The spec calls its values byte
    sequences and byte buffers, so it is a growable vector of bytes with
    the operations of [std::vector]; equality is equality of the
    sequences. *)
Module Bytes.

Abbreviation t := (list byte).

(** [Bytes b(n)]: [n] zero bytes. *)
Definition make (n : N) : t := replicate (N.to_nat n) x00.

(** [b.assign(n, v)]. *)
Definition assign (n : N) (v : byte) : t := replicate (N.to_nat n) v.

(** [b.clear()]. *)
Definition clear : t := [].

(** [b += other]. *)
Definition append (b other : t) : t := b ++ other.

(** [b.resize(n)]: truncate, or pad with zero bytes. *)
Definition resize (n : N) (b : t) : t := list.resize (N.to_nat n) x00 b.

(** [b.size()]. *)
Definition size (b : t) : N := N.of_nat (length b).

(** Bit [ix] of a sequence is bit [ix mod 8] of byte [ix / 8], the
    layout under which the loop of [init] sets the low bits of the
    register it then loads; outside the sequence it reads as [false]. *)
Definition get_ith_bit (ix : N) (b : t) : bool :=
  match b !! N.to_nat (ix / 8) with
  | Some x => N.testbit (Byte.to_N x) (ix mod 8)
  | None => false
  end.

(** Modelled from the spec: [b.set_ith_bit(ix, bit)] of the absent
    Bytes.h, which forces bit [ix] of the sequence to [bit]; a position
    outside the sequence is an access outside the vector and aborts. *)
Definition set_ith_bit (ix : N) (bit : bool) (b : t) : option t :=
  match b !! N.to_nat (ix / 8) with
  | Some x => Some (<[N.to_nat (ix / 8) := byte_set_bit x (ix mod 8) bit]> b)
  | None => None
  end.

End Bytes.

(** ** 128-bit registers *)

(** The number whose little-endian memory image is [b]. *)
Fixpoint le_combine (b : Bytes.t) : N :=
  match b with
  | [] => 0
  | x :: rest => N.lor (Byte.to_N x) (N.shiftl (le_combine rest) 8)
  end.

(** [_mm_loadu_si128(reinterpret_cast<__m128i*>(&b[0]))]: the sixteen
    bytes at the start of [b]; fewer than sixteen is a read outside the
    buffer. *)
Definition _mm_loadu_si128 (b : Bytes.t) : option N :=
  if decide (16 <= Bytes.size b) then Some (le_combine (take 16 b)) else None.

(** ** Lanes of a 128-bit register *)

(** [_mm_extract_epi16(a, imm8)] of SSE2: the 16-bit lane that the low
    three bits of [imm8] select, zero-extended to an [int]. *)
Definition _mm_extract_epi16 (a imm8 : N) : N :=
  N.land (N.shiftr a (N.land imm8 7 * 16)) 0xffff.

(** The register whose 16-bit lanes, lowest first, are [lanes]. *)
Fixpoint pack_epi16 (lanes : list N) : N :=
  match lanes with
  | [] => 0
  | l :: rest => N.lor (N.land l 0xffff) (N.shiftl (pack_epi16 rest) 16)
  end.

(** [_mm_srli_epi16(a, imm8)] of SSE2: each of the eight 16-bit lanes
    shifted right by [imm8] with zeros shifted in; a count above 15
    clears every lane. *)
Definition _mm_srli_epi16 (a imm8 : N) : N :=
  pack_epi16
    ((fun j => if 15 <? imm8 then 0 else N.shiftr (_mm_extract_epi16 a j) imm8)
       <$> (N.of_nat <$> seq 0 8)).

(** The macro [_mm_extract_epi8(x, imm)] of the header: an even [imm]
    takes the low byte of lane [imm >> 1], an odd one takes that lane
    of the register with every lane shifted down by eight bits. *)
Definition _mm_extract_epi8 (x imm : N) : N :=
  if N.land imm 0x1 =? 0 then
    N.land (_mm_extract_epi16 x (N.shiftr imm 1)) 0xff
  else
    _mm_extract_epi16 (_mm_srli_epi16 x 8) (N.shiftr imm 1).

(** ** The session state *)

Section Session.

(** The collaborators the header only names: the incremental hash
    object ([Hash.h]), the pseudo-random generator ([Prng.h]) and the
    circuit engine's state ([pcflib.h]). *)
Context {Hash Prng PCFState : Type}.

Record garbled_circuit_m_t : Type := {
  m_bufr : Bytes.t;
  m_hash : Hash;
  m_R : N; (* __m128i *)
  m_ot_keys : list Bytes.t; (* the vector borrowed through the pointer *)
  m_prng : Prng;
  m_gate_ix : N; (* uint64_t *)
  m_gen_inp_hash_ix : N; (* uint32_t *)
  m_gen_inp_ix : N; (* uint32_t *)
  m_evl_inp_ix : N; (* uint32_t *)
  m_gen_out_ix : N; (* uint32_t *)
  m_evl_out_ix : N; (* uint32_t *)
  m_clear_mask : N; (* __m128i *)
  m_gen_inp_mask : Bytes.t;
  m_gen_inp : Bytes.t;
  m_evl_inp : Bytes.t;
  m_gen_out : Bytes.t;
  m_evl_out : Bytes.t;
  m_gen_inp_com : list Bytes.t;
  m_gen_inp_decom : list Bytes.t;
  m_gen_inp_hash : Bytes.t;
  m_o_bufr : Bytes.t;
  m_i_bufr : Bytes.t;
  m_i_bufr_ix : N; (* Bytes::iterator, as an offset from m_i_bufr.begin() *)
  m_st : PCFState; (* struct PCFState * *)
  m_gen_inp_cnt : N; (* uint32_t *)
  m_evl_inp_cnt : N; (* uint32_t *)
  m_const_wire : N * N (* keys for constant 0 and 1 *)
}.

(** Assignments to single fields, [cct.f = v]. *)

Definition set_m_R (v : N) (cct : garbled_circuit_m_t)
  : garbled_circuit_m_t :=
  {| m_bufr := m_bufr cct; m_hash := m_hash cct; m_R := v; m_ot_keys :=
     m_ot_keys cct; m_prng := m_prng cct; m_gate_ix := m_gate_ix cct;
     m_gen_inp_hash_ix := m_gen_inp_hash_ix cct; m_gen_inp_ix :=
     m_gen_inp_ix cct; m_evl_inp_ix := m_evl_inp_ix cct; m_gen_out_ix :=
     m_gen_out_ix cct; m_evl_out_ix := m_evl_out_ix cct; m_clear_mask :=
     m_clear_mask cct; m_gen_inp_mask := m_gen_inp_mask cct; m_gen_inp
     := m_gen_inp cct; m_evl_inp := m_evl_inp cct; m_gen_out :=
     m_gen_out cct; m_evl_out := m_evl_out cct; m_gen_inp_com :=
     m_gen_inp_com cct; m_gen_inp_decom := m_gen_inp_decom cct;
     m_gen_inp_hash := m_gen_inp_hash cct; m_o_bufr := m_o_bufr cct;
     m_i_bufr := m_i_bufr cct; m_i_bufr_ix := m_i_bufr_ix cct; m_st :=
     m_st cct; m_gen_inp_cnt := m_gen_inp_cnt cct; m_evl_inp_cnt :=
     m_evl_inp_cnt cct; m_const_wire := m_const_wire cct |}.

Definition set_m_ot_keys (v : list Bytes.t) (cct : garbled_circuit_m_t)
  : garbled_circuit_m_t :=
  {| m_bufr := m_bufr cct; m_hash := m_hash cct; m_R := m_R cct;
     m_ot_keys := v; m_prng := m_prng cct; m_gate_ix := m_gate_ix cct;
     m_gen_inp_hash_ix := m_gen_inp_hash_ix cct; m_gen_inp_ix :=
     m_gen_inp_ix cct; m_evl_inp_ix := m_evl_inp_ix cct; m_gen_out_ix :=
     m_gen_out_ix cct; m_evl_out_ix := m_evl_out_ix cct; m_clear_mask :=
     m_clear_mask cct; m_gen_inp_mask := m_gen_inp_mask cct; m_gen_inp
     := m_gen_inp cct; m_evl_inp := m_evl_inp cct; m_gen_out :=
     m_gen_out cct; m_evl_out := m_evl_out cct; m_gen_inp_com :=
     m_gen_inp_com cct; m_gen_inp_decom := m_gen_inp_decom cct;
     m_gen_inp_hash := m_gen_inp_hash cct; m_o_bufr := m_o_bufr cct;
     m_i_bufr := m_i_bufr cct; m_i_bufr_ix := m_i_bufr_ix cct; m_st :=
     m_st cct; m_gen_inp_cnt := m_gen_inp_cnt cct; m_evl_inp_cnt :=
     m_evl_inp_cnt cct; m_const_wire := m_const_wire cct |}.

Definition set_m_prng (v : Prng) (cct : garbled_circuit_m_t)
  : garbled_circuit_m_t :=
  {| m_bufr := m_bufr cct; m_hash := m_hash cct; m_R := m_R cct;
     m_ot_keys := m_ot_keys cct; m_prng := v; m_gate_ix := m_gate_ix
     cct; m_gen_inp_hash_ix := m_gen_inp_hash_ix cct; m_gen_inp_ix :=
     m_gen_inp_ix cct; m_evl_inp_ix := m_evl_inp_ix cct; m_gen_out_ix :=
     m_gen_out_ix cct; m_evl_out_ix := m_evl_out_ix cct; m_clear_mask :=
     m_clear_mask cct; m_gen_inp_mask := m_gen_inp_mask cct; m_gen_inp
     := m_gen_inp cct; m_evl_inp := m_evl_inp cct; m_gen_out :=
     m_gen_out cct; m_evl_out := m_evl_out cct; m_gen_inp_com :=
     m_gen_inp_com cct; m_gen_inp_decom := m_gen_inp_decom cct;
     m_gen_inp_hash := m_gen_inp_hash cct; m_o_bufr := m_o_bufr cct;
     m_i_bufr := m_i_bufr cct; m_i_bufr_ix := m_i_bufr_ix cct; m_st :=
     m_st cct; m_gen_inp_cnt := m_gen_inp_cnt cct; m_evl_inp_cnt :=
     m_evl_inp_cnt cct; m_const_wire := m_const_wire cct |}.

Definition set_m_gate_ix (v : N) (cct : garbled_circuit_m_t)
  : garbled_circuit_m_t :=
  {| m_bufr := m_bufr cct; m_hash := m_hash cct; m_R := m_R cct;
     m_ot_keys := m_ot_keys cct; m_prng := m_prng cct; m_gate_ix := v;
     m_gen_inp_hash_ix := m_gen_inp_hash_ix cct; m_gen_inp_ix :=
     m_gen_inp_ix cct; m_evl_inp_ix := m_evl_inp_ix cct; m_gen_out_ix :=
     m_gen_out_ix cct; m_evl_out_ix := m_evl_out_ix cct; m_clear_mask :=
     m_clear_mask cct; m_gen_inp_mask := m_gen_inp_mask cct; m_gen_inp
     := m_gen_inp cct; m_evl_inp := m_evl_inp cct; m_gen_out :=
     m_gen_out cct; m_evl_out := m_evl_out cct; m_gen_inp_com :=
     m_gen_inp_com cct; m_gen_inp_decom := m_gen_inp_decom cct;
     m_gen_inp_hash := m_gen_inp_hash cct; m_o_bufr := m_o_bufr cct;
     m_i_bufr := m_i_bufr cct; m_i_bufr_ix := m_i_bufr_ix cct; m_st :=
     m_st cct; m_gen_inp_cnt := m_gen_inp_cnt cct; m_evl_inp_cnt :=
     m_evl_inp_cnt cct; m_const_wire := m_const_wire cct |}.

Definition set_m_gen_inp_ix (v : N) (cct : garbled_circuit_m_t)
  : garbled_circuit_m_t :=
  {| m_bufr := m_bufr cct; m_hash := m_hash cct; m_R := m_R cct;
     m_ot_keys := m_ot_keys cct; m_prng := m_prng cct; m_gate_ix :=
     m_gate_ix cct; m_gen_inp_hash_ix := m_gen_inp_hash_ix cct;
     m_gen_inp_ix := v; m_evl_inp_ix := m_evl_inp_ix cct; m_gen_out_ix
     := m_gen_out_ix cct; m_evl_out_ix := m_evl_out_ix cct; m_clear_mask
     := m_clear_mask cct; m_gen_inp_mask := m_gen_inp_mask cct;
     m_gen_inp := m_gen_inp cct; m_evl_inp := m_evl_inp cct; m_gen_out
     := m_gen_out cct; m_evl_out := m_evl_out cct; m_gen_inp_com :=
     m_gen_inp_com cct; m_gen_inp_decom := m_gen_inp_decom cct;
     m_gen_inp_hash := m_gen_inp_hash cct; m_o_bufr := m_o_bufr cct;
     m_i_bufr := m_i_bufr cct; m_i_bufr_ix := m_i_bufr_ix cct; m_st :=
     m_st cct; m_gen_inp_cnt := m_gen_inp_cnt cct; m_evl_inp_cnt :=
     m_evl_inp_cnt cct; m_const_wire := m_const_wire cct |}.

Definition set_m_evl_inp_ix (v : N) (cct : garbled_circuit_m_t)
  : garbled_circuit_m_t :=
  {| m_bufr := m_bufr cct; m_hash := m_hash cct; m_R := m_R cct;
     m_ot_keys := m_ot_keys cct; m_prng := m_prng cct; m_gate_ix :=
     m_gate_ix cct; m_gen_inp_hash_ix := m_gen_inp_hash_ix cct;
     m_gen_inp_ix := m_gen_inp_ix cct; m_evl_inp_ix := v; m_gen_out_ix
     := m_gen_out_ix cct; m_evl_out_ix := m_evl_out_ix cct; m_clear_mask
     := m_clear_mask cct; m_gen_inp_mask := m_gen_inp_mask cct;
     m_gen_inp := m_gen_inp cct; m_evl_inp := m_evl_inp cct; m_gen_out
     := m_gen_out cct; m_evl_out := m_evl_out cct; m_gen_inp_com :=
     m_gen_inp_com cct; m_gen_inp_decom := m_gen_inp_decom cct;
     m_gen_inp_hash := m_gen_inp_hash cct; m_o_bufr := m_o_bufr cct;
     m_i_bufr := m_i_bufr cct; m_i_bufr_ix := m_i_bufr_ix cct; m_st :=
     m_st cct; m_gen_inp_cnt := m_gen_inp_cnt cct; m_evl_inp_cnt :=
     m_evl_inp_cnt cct; m_const_wire := m_const_wire cct |}.

Definition set_m_gen_out_ix (v : N) (cct : garbled_circuit_m_t)
  : garbled_circuit_m_t :=
  {| m_bufr := m_bufr cct; m_hash := m_hash cct; m_R := m_R cct;
     m_ot_keys := m_ot_keys cct; m_prng := m_prng cct; m_gate_ix :=
     m_gate_ix cct; m_gen_inp_hash_ix := m_gen_inp_hash_ix cct;
     m_gen_inp_ix := m_gen_inp_ix cct; m_evl_inp_ix := m_evl_inp_ix cct;
     m_gen_out_ix := v; m_evl_out_ix := m_evl_out_ix cct; m_clear_mask
     := m_clear_mask cct; m_gen_inp_mask := m_gen_inp_mask cct;
     m_gen_inp := m_gen_inp cct; m_evl_inp := m_evl_inp cct; m_gen_out
     := m_gen_out cct; m_evl_out := m_evl_out cct; m_gen_inp_com :=
     m_gen_inp_com cct; m_gen_inp_decom := m_gen_inp_decom cct;
     m_gen_inp_hash := m_gen_inp_hash cct; m_o_bufr := m_o_bufr cct;
     m_i_bufr := m_i_bufr cct; m_i_bufr_ix := m_i_bufr_ix cct; m_st :=
     m_st cct; m_gen_inp_cnt := m_gen_inp_cnt cct; m_evl_inp_cnt :=
     m_evl_inp_cnt cct; m_const_wire := m_const_wire cct |}.

Definition set_m_evl_out_ix (v : N) (cct : garbled_circuit_m_t)
  : garbled_circuit_m_t :=
  {| m_bufr := m_bufr cct; m_hash := m_hash cct; m_R := m_R cct;
     m_ot_keys := m_ot_keys cct; m_prng := m_prng cct; m_gate_ix :=
     m_gate_ix cct; m_gen_inp_hash_ix := m_gen_inp_hash_ix cct;
     m_gen_inp_ix := m_gen_inp_ix cct; m_evl_inp_ix := m_evl_inp_ix cct;
     m_gen_out_ix := m_gen_out_ix cct; m_evl_out_ix := v; m_clear_mask
     := m_clear_mask cct; m_gen_inp_mask := m_gen_inp_mask cct;
     m_gen_inp := m_gen_inp cct; m_evl_inp := m_evl_inp cct; m_gen_out
     := m_gen_out cct; m_evl_out := m_evl_out cct; m_gen_inp_com :=
     m_gen_inp_com cct; m_gen_inp_decom := m_gen_inp_decom cct;
     m_gen_inp_hash := m_gen_inp_hash cct; m_o_bufr := m_o_bufr cct;
     m_i_bufr := m_i_bufr cct; m_i_bufr_ix := m_i_bufr_ix cct; m_st :=
     m_st cct; m_gen_inp_cnt := m_gen_inp_cnt cct; m_evl_inp_cnt :=
     m_evl_inp_cnt cct; m_const_wire := m_const_wire cct |}.

Definition set_m_clear_mask (v : N) (cct : garbled_circuit_m_t)
  : garbled_circuit_m_t :=
  {| m_bufr := m_bufr cct; m_hash := m_hash cct; m_R := m_R cct;
     m_ot_keys := m_ot_keys cct; m_prng := m_prng cct; m_gate_ix :=
     m_gate_ix cct; m_gen_inp_hash_ix := m_gen_inp_hash_ix cct;
     m_gen_inp_ix := m_gen_inp_ix cct; m_evl_inp_ix := m_evl_inp_ix cct;
     m_gen_out_ix := m_gen_out_ix cct; m_evl_out_ix := m_evl_out_ix cct;
     m_clear_mask := v; m_gen_inp_mask := m_gen_inp_mask cct; m_gen_inp
     := m_gen_inp cct; m_evl_inp := m_evl_inp cct; m_gen_out :=
     m_gen_out cct; m_evl_out := m_evl_out cct; m_gen_inp_com :=
     m_gen_inp_com cct; m_gen_inp_decom := m_gen_inp_decom cct;
     m_gen_inp_hash := m_gen_inp_hash cct; m_o_bufr := m_o_bufr cct;
     m_i_bufr := m_i_bufr cct; m_i_bufr_ix := m_i_bufr_ix cct; m_st :=
     m_st cct; m_gen_inp_cnt := m_gen_inp_cnt cct; m_evl_inp_cnt :=
     m_evl_inp_cnt cct; m_const_wire := m_const_wire cct |}.

Definition set_m_gen_inp_mask (v : Bytes.t) (cct : garbled_circuit_m_t)
  : garbled_circuit_m_t :=
  {| m_bufr := m_bufr cct; m_hash := m_hash cct; m_R := m_R cct;
     m_ot_keys := m_ot_keys cct; m_prng := m_prng cct; m_gate_ix :=
     m_gate_ix cct; m_gen_inp_hash_ix := m_gen_inp_hash_ix cct;
     m_gen_inp_ix := m_gen_inp_ix cct; m_evl_inp_ix := m_evl_inp_ix cct;
     m_gen_out_ix := m_gen_out_ix cct; m_evl_out_ix := m_evl_out_ix cct;
     m_clear_mask := m_clear_mask cct; m_gen_inp_mask := v; m_gen_inp :=
     m_gen_inp cct; m_evl_inp := m_evl_inp cct; m_gen_out := m_gen_out
     cct; m_evl_out := m_evl_out cct; m_gen_inp_com := m_gen_inp_com
     cct; m_gen_inp_decom := m_gen_inp_decom cct; m_gen_inp_hash :=
     m_gen_inp_hash cct; m_o_bufr := m_o_bufr cct; m_i_bufr := m_i_bufr
     cct; m_i_bufr_ix := m_i_bufr_ix cct; m_st := m_st cct;
     m_gen_inp_cnt := m_gen_inp_cnt cct; m_evl_inp_cnt := m_evl_inp_cnt
     cct; m_const_wire := m_const_wire cct |}.

Definition set_m_gen_out (v : Bytes.t) (cct : garbled_circuit_m_t)
  : garbled_circuit_m_t :=
  {| m_bufr := m_bufr cct; m_hash := m_hash cct; m_R := m_R cct;
     m_ot_keys := m_ot_keys cct; m_prng := m_prng cct; m_gate_ix :=
     m_gate_ix cct; m_gen_inp_hash_ix := m_gen_inp_hash_ix cct;
     m_gen_inp_ix := m_gen_inp_ix cct; m_evl_inp_ix := m_evl_inp_ix cct;
     m_gen_out_ix := m_gen_out_ix cct; m_evl_out_ix := m_evl_out_ix cct;
     m_clear_mask := m_clear_mask cct; m_gen_inp_mask := m_gen_inp_mask
     cct; m_gen_inp := m_gen_inp cct; m_evl_inp := m_evl_inp cct;
     m_gen_out := v; m_evl_out := m_evl_out cct; m_gen_inp_com :=
     m_gen_inp_com cct; m_gen_inp_decom := m_gen_inp_decom cct;
     m_gen_inp_hash := m_gen_inp_hash cct; m_o_bufr := m_o_bufr cct;
     m_i_bufr := m_i_bufr cct; m_i_bufr_ix := m_i_bufr_ix cct; m_st :=
     m_st cct; m_gen_inp_cnt := m_gen_inp_cnt cct; m_evl_inp_cnt :=
     m_evl_inp_cnt cct; m_const_wire := m_const_wire cct |}.

Definition set_m_evl_out (v : Bytes.t) (cct : garbled_circuit_m_t)
  : garbled_circuit_m_t :=
  {| m_bufr := m_bufr cct; m_hash := m_hash cct; m_R := m_R cct;
     m_ot_keys := m_ot_keys cct; m_prng := m_prng cct; m_gate_ix :=
     m_gate_ix cct; m_gen_inp_hash_ix := m_gen_inp_hash_ix cct;
     m_gen_inp_ix := m_gen_inp_ix cct; m_evl_inp_ix := m_evl_inp_ix cct;
     m_gen_out_ix := m_gen_out_ix cct; m_evl_out_ix := m_evl_out_ix cct;
     m_clear_mask := m_clear_mask cct; m_gen_inp_mask := m_gen_inp_mask
     cct; m_gen_inp := m_gen_inp cct; m_evl_inp := m_evl_inp cct;
     m_gen_out := m_gen_out cct; m_evl_out := v; m_gen_inp_com :=
     m_gen_inp_com cct; m_gen_inp_decom := m_gen_inp_decom cct;
     m_gen_inp_hash := m_gen_inp_hash cct; m_o_bufr := m_o_bufr cct;
     m_i_bufr := m_i_bufr cct; m_i_bufr_ix := m_i_bufr_ix cct; m_st :=
     m_st cct; m_gen_inp_cnt := m_gen_inp_cnt cct; m_evl_inp_cnt :=
     m_evl_inp_cnt cct; m_const_wire := m_const_wire cct |}.

Definition set_m_gen_inp_hash (v : Bytes.t) (cct : garbled_circuit_m_t)
  : garbled_circuit_m_t :=
  {| m_bufr := m_bufr cct; m_hash := m_hash cct; m_R := m_R cct;
     m_ot_keys := m_ot_keys cct; m_prng := m_prng cct; m_gate_ix :=
     m_gate_ix cct; m_gen_inp_hash_ix := m_gen_inp_hash_ix cct;
     m_gen_inp_ix := m_gen_inp_ix cct; m_evl_inp_ix := m_evl_inp_ix cct;
     m_gen_out_ix := m_gen_out_ix cct; m_evl_out_ix := m_evl_out_ix cct;
     m_clear_mask := m_clear_mask cct; m_gen_inp_mask := m_gen_inp_mask
     cct; m_gen_inp := m_gen_inp cct; m_evl_inp := m_evl_inp cct;
     m_gen_out := m_gen_out cct; m_evl_out := m_evl_out cct;
     m_gen_inp_com := m_gen_inp_com cct; m_gen_inp_decom :=
     m_gen_inp_decom cct; m_gen_inp_hash := v; m_o_bufr := m_o_bufr cct;
     m_i_bufr := m_i_bufr cct; m_i_bufr_ix := m_i_bufr_ix cct; m_st :=
     m_st cct; m_gen_inp_cnt := m_gen_inp_cnt cct; m_evl_inp_cnt :=
     m_evl_inp_cnt cct; m_const_wire := m_const_wire cct |}.

Definition set_m_o_bufr (v : Bytes.t) (cct : garbled_circuit_m_t)
  : garbled_circuit_m_t :=
  {| m_bufr := m_bufr cct; m_hash := m_hash cct; m_R := m_R cct;
     m_ot_keys := m_ot_keys cct; m_prng := m_prng cct; m_gate_ix :=
     m_gate_ix cct; m_gen_inp_hash_ix := m_gen_inp_hash_ix cct;
     m_gen_inp_ix := m_gen_inp_ix cct; m_evl_inp_ix := m_evl_inp_ix cct;
     m_gen_out_ix := m_gen_out_ix cct; m_evl_out_ix := m_evl_out_ix cct;
     m_clear_mask := m_clear_mask cct; m_gen_inp_mask := m_gen_inp_mask
     cct; m_gen_inp := m_gen_inp cct; m_evl_inp := m_evl_inp cct;
     m_gen_out := m_gen_out cct; m_evl_out := m_evl_out cct;
     m_gen_inp_com := m_gen_inp_com cct; m_gen_inp_decom :=
     m_gen_inp_decom cct; m_gen_inp_hash := m_gen_inp_hash cct; m_o_bufr
     := v; m_i_bufr := m_i_bufr cct; m_i_bufr_ix := m_i_bufr_ix cct;
     m_st := m_st cct; m_gen_inp_cnt := m_gen_inp_cnt cct; m_evl_inp_cnt
     := m_evl_inp_cnt cct; m_const_wire := m_const_wire cct |}.

Definition set_m_i_bufr (v : Bytes.t) (cct : garbled_circuit_m_t)
  : garbled_circuit_m_t :=
  {| m_bufr := m_bufr cct; m_hash := m_hash cct; m_R := m_R cct;
     m_ot_keys := m_ot_keys cct; m_prng := m_prng cct; m_gate_ix :=
     m_gate_ix cct; m_gen_inp_hash_ix := m_gen_inp_hash_ix cct;
     m_gen_inp_ix := m_gen_inp_ix cct; m_evl_inp_ix := m_evl_inp_ix cct;
     m_gen_out_ix := m_gen_out_ix cct; m_evl_out_ix := m_evl_out_ix cct;
     m_clear_mask := m_clear_mask cct; m_gen_inp_mask := m_gen_inp_mask
     cct; m_gen_inp := m_gen_inp cct; m_evl_inp := m_evl_inp cct;
     m_gen_out := m_gen_out cct; m_evl_out := m_evl_out cct;
     m_gen_inp_com := m_gen_inp_com cct; m_gen_inp_decom :=
     m_gen_inp_decom cct; m_gen_inp_hash := m_gen_inp_hash cct; m_o_bufr
     := m_o_bufr cct; m_i_bufr := v; m_i_bufr_ix := m_i_bufr_ix cct;
     m_st := m_st cct; m_gen_inp_cnt := m_gen_inp_cnt cct; m_evl_inp_cnt
     := m_evl_inp_cnt cct; m_const_wire := m_const_wire cct |}.

Definition set_m_i_bufr_ix (v : N) (cct : garbled_circuit_m_t)
  : garbled_circuit_m_t :=
  {| m_bufr := m_bufr cct; m_hash := m_hash cct; m_R := m_R cct;
     m_ot_keys := m_ot_keys cct; m_prng := m_prng cct; m_gate_ix :=
     m_gate_ix cct; m_gen_inp_hash_ix := m_gen_inp_hash_ix cct;
     m_gen_inp_ix := m_gen_inp_ix cct; m_evl_inp_ix := m_evl_inp_ix cct;
     m_gen_out_ix := m_gen_out_ix cct; m_evl_out_ix := m_evl_out_ix cct;
     m_clear_mask := m_clear_mask cct; m_gen_inp_mask := m_gen_inp_mask
     cct; m_gen_inp := m_gen_inp cct; m_evl_inp := m_evl_inp cct;
     m_gen_out := m_gen_out cct; m_evl_out := m_evl_out cct;
     m_gen_inp_com := m_gen_inp_com cct; m_gen_inp_decom :=
     m_gen_inp_decom cct; m_gen_inp_hash := m_gen_inp_hash cct; m_o_bufr
     := m_o_bufr cct; m_i_bufr := m_i_bufr cct; m_i_bufr_ix := v; m_st
     := m_st cct; m_gen_inp_cnt := m_gen_inp_cnt cct; m_evl_inp_cnt :=
     m_evl_inp_cnt cct; m_const_wire := m_const_wire cct |}.

Definition set_m_const_wire (v : N * N) (cct : garbled_circuit_m_t)
  : garbled_circuit_m_t :=
  {| m_bufr := m_bufr cct; m_hash := m_hash cct; m_R := m_R cct;
     m_ot_keys := m_ot_keys cct; m_prng := m_prng cct; m_gate_ix :=
     m_gate_ix cct; m_gen_inp_hash_ix := m_gen_inp_hash_ix cct;
     m_gen_inp_ix := m_gen_inp_ix cct; m_evl_inp_ix := m_evl_inp_ix cct;
     m_gen_out_ix := m_gen_out_ix cct; m_evl_out_ix := m_evl_out_ix cct;
     m_clear_mask := m_clear_mask cct; m_gen_inp_mask := m_gen_inp_mask
     cct; m_gen_inp := m_gen_inp cct; m_evl_inp := m_evl_inp cct;
     m_gen_out := m_gen_out cct; m_evl_out := m_evl_out cct;
     m_gen_inp_com := m_gen_inp_com cct; m_gen_inp_decom :=
     m_gen_inp_decom cct; m_gen_inp_hash := m_gen_inp_hash cct; m_o_bufr
     := m_o_bufr cct; m_i_bufr := m_i_bufr cct; m_i_bufr_ix :=
     m_i_bufr_ix cct; m_st := m_st cct; m_gen_inp_cnt := m_gen_inp_cnt
     cct; m_evl_inp_cnt := m_evl_inp_cnt cct; m_const_wire := v |}.

Definition set_m_gen_inp_hash_ix (v : N) (cct : garbled_circuit_m_t)
  : garbled_circuit_m_t :=
  {| m_bufr := m_bufr cct; m_hash := m_hash cct; m_R := m_R cct; m_ot_keys
     := m_ot_keys cct; m_prng := m_prng cct; m_gate_ix := m_gate_ix cct;
     m_gen_inp_hash_ix := v; m_gen_inp_ix := m_gen_inp_ix cct;
     m_evl_inp_ix := m_evl_inp_ix cct; m_gen_out_ix := m_gen_out_ix cct;
     m_evl_out_ix := m_evl_out_ix cct; m_clear_mask := m_clear_mask cct;
     m_gen_inp_mask := m_gen_inp_mask cct; m_gen_inp := m_gen_inp cct;
     m_evl_inp := m_evl_inp cct; m_gen_out := m_gen_out cct; m_evl_out :=
     m_evl_out cct; m_gen_inp_com := m_gen_inp_com cct; m_gen_inp_decom :=
     m_gen_inp_decom cct; m_gen_inp_hash := m_gen_inp_hash cct; m_o_bufr
     := m_o_bufr cct; m_i_bufr := m_i_bufr cct; m_i_bufr_ix := m_i_bufr_ix
     cct; m_st := m_st cct; m_gen_inp_cnt := m_gen_inp_cnt cct;
     m_evl_inp_cnt := m_evl_inp_cnt cct; m_const_wire := m_const_wire cct |}.

Definition set_m_gen_inp_com (v : list Bytes.t) (cct : garbled_circuit_m_t)
  : garbled_circuit_m_t :=
  {| m_bufr := m_bufr cct; m_hash := m_hash cct; m_R := m_R cct; m_ot_keys
     := m_ot_keys cct; m_prng := m_prng cct; m_gate_ix := m_gate_ix cct;
     m_gen_inp_hash_ix := m_gen_inp_hash_ix cct; m_gen_inp_ix :=
     m_gen_inp_ix cct; m_evl_inp_ix := m_evl_inp_ix cct; m_gen_out_ix :=
     m_gen_out_ix cct; m_evl_out_ix := m_evl_out_ix cct; m_clear_mask :=
     m_clear_mask cct; m_gen_inp_mask := m_gen_inp_mask cct; m_gen_inp :=
     m_gen_inp cct; m_evl_inp := m_evl_inp cct; m_gen_out := m_gen_out
     cct; m_evl_out := m_evl_out cct; m_gen_inp_com := v; m_gen_inp_decom
     := m_gen_inp_decom cct; m_gen_inp_hash := m_gen_inp_hash cct;
     m_o_bufr := m_o_bufr cct; m_i_bufr := m_i_bufr cct; m_i_bufr_ix :=
     m_i_bufr_ix cct; m_st := m_st cct; m_gen_inp_cnt := m_gen_inp_cnt
     cct; m_evl_inp_cnt := m_evl_inp_cnt cct; m_const_wire := m_const_wire
     cct |}.

Definition set_m_gen_inp_decom (v : list Bytes.t) (cct : garbled_circuit_m_t)
  : garbled_circuit_m_t :=
  {| m_bufr := m_bufr cct; m_hash := m_hash cct; m_R := m_R cct; m_ot_keys
     := m_ot_keys cct; m_prng := m_prng cct; m_gate_ix := m_gate_ix cct;
     m_gen_inp_hash_ix := m_gen_inp_hash_ix cct; m_gen_inp_ix :=
     m_gen_inp_ix cct; m_evl_inp_ix := m_evl_inp_ix cct; m_gen_out_ix :=
     m_gen_out_ix cct; m_evl_out_ix := m_evl_out_ix cct; m_clear_mask :=
     m_clear_mask cct; m_gen_inp_mask := m_gen_inp_mask cct; m_gen_inp :=
     m_gen_inp cct; m_evl_inp := m_evl_inp cct; m_gen_out := m_gen_out
     cct; m_evl_out := m_evl_out cct; m_gen_inp_com := m_gen_inp_com cct;
     m_gen_inp_decom := v; m_gen_inp_hash := m_gen_inp_hash cct; m_o_bufr
     := m_o_bufr cct; m_i_bufr := m_i_bufr cct; m_i_bufr_ix := m_i_bufr_ix
     cct; m_st := m_st cct; m_gen_inp_cnt := m_gen_inp_cnt cct;
     m_evl_inp_cnt := m_evl_inp_cnt cct; m_const_wire := m_const_wire cct |}.

(** ** Configuration and collaborators *)

(** [Env::k()], the security parameter in bits, and
    [Env::key_size_in_bytes()]; [Env.h] is not among the sources and the
    header only reads the two values. *)
Variable k : N.
Variable key_size_in_bytes : N.

(** [b.hash(bits)]: the digest of the byte sequence [b] at the given
    security parameter, a black box of the hash collaborator. *)
Variable hash : Bytes.t -> N -> Bytes.t.

(** ** The inline operations of the header *)

(** [trim_output]: both sums are computed on [uint32_t]. *)
Definition trim_output (cct : garbled_circuit_m_t) : garbled_circuit_m_t :=
  let cct :=
    set_m_gen_out (Bytes.resize (add32 (m_gen_out_ix cct) 7 / 8) (m_gen_out cct)) cct in
  let cct :=
    set_m_evl_out (Bytes.resize (add32 (m_evl_out_ix cct) 7 / 8) (m_evl_out cct)) cct in
  cct.

(** [recv]: [i_data] is the caller's byte sequence, an object of its own
    (the transport delivers it); it is read after the buffer was
    cleared. *)
Definition recv (cct : garbled_circuit_m_t) (i_data : Bytes.t) : garbled_circuit_m_t :=
  let cct := set_m_i_bufr Bytes.clear cct in
  let cct := set_m_i_bufr (Bytes.append (m_i_bufr cct) i_data) cct in
  let cct := set_m_i_bufr_ix 0 cct in
  cct.

(** [send]: a fresh, empty [o_data] is swapped with the outgoing buffer
    and returned. *)
Definition send (cct : garbled_circuit_m_t) : Bytes.t * garbled_circuit_m_t :=
  let o_data := Bytes.clear in
  let '(o_data, o_bufr) := (m_o_bufr cct, o_data) in
  (o_data, set_m_o_bufr o_bufr cct).

(** The loop of [pass_check]: [n] iterations are left, [ix] is the loop
    index and [pass_chk] the accumulator; [&=] evaluates its right-hand
    side at every index. *)
Fixpoint pass_check_loop (cct : garbled_circuit_m_t) (n : nat) (ix : nat)
    (pass_chk : bool) : option bool :=
  match n with
  | O => Some pass_chk
  | S n' =>
      match m_gen_inp_decom cct !! ix, m_gen_inp_com cct !! ix with
      | Some decom, Some com =>
          pass_check_loop cct n' (S ix) (pass_chk && bool_decide (hash decom k = com))
      | _, _ => None
      end
  end.

(** [pass_check]: the [assert] at its entry aborts on vectors of
    different sizes. *)
Definition pass_check (cct : garbled_circuit_m_t) : option bool :=
  if decide (length (m_gen_inp_decom cct) = length (m_gen_inp_com cct)) then
    pass_check_loop cct (length (m_gen_inp_decom cct)) 0 true
  else None.

(** The pair stored at index [ix] verifies: the hash of the
    decommitment is the commitment. *)
Definition opens_at (cct : garbled_circuit_m_t) (ix : nat) : Prop :=
  forall decom com,
    m_gen_inp_decom cct !! ix = Some decom ->
    m_gen_inp_com cct !! ix = Some com ->
    hash decom k = com.

(** The loop of [init], [for (ix = 0; ix < Env::k(); ix++)
    tmp.set_ith_bit(ix, 1)], with [n] iterations left. *)
Fixpoint init_mask_loop (n : nat) (ix : N) (tmp : Bytes.t) : option Bytes.t :=
  match n with
  | O => Some tmp
  | S n' =>
      match Bytes.set_ith_bit ix true tmp with
      | Some tmp' => init_mask_loop n' (N.succ ix) tmp'
      | None => None
      end
  end.

(** [init], the initialization both roles share. *)
Definition init (cct : garbled_circuit_m_t) : option garbled_circuit_m_t :=
  let cct := set_m_gate_ix 0 cct in
  let cct := set_m_gen_inp_ix 0 cct in
  let cct := set_m_evl_inp_ix 0 cct in
  let cct := set_m_gen_out_ix 0 cct in
  let cct := set_m_evl_out_ix 0 cct in
  let cct := set_m_o_bufr Bytes.clear cct in
  let cct := set_m_gen_inp_hash (Bytes.assign key_size_in_bytes x00) cct in
  let tmp := Bytes.make 16 in
  match init_mask_loop (N.to_nat k) 0 tmp with
  | Some tmp =>
      match _mm_loadu_si128 tmp with
      | Some mask => Some (set_m_clear_mask mask cct)
      | None => None
      end
  | None => None
  end.

End Session.

Arguments garbled_circuit_m_t : clear implicits.

(** ** Concrete collaborators and states *)

(** A stand-in for the hash collaborator: the first [bits / 8] bytes of
    the input, padded with zeros. *)
Definition toy_hash (b : Bytes.t) (bits : N) : Bytes.t := Bytes.resize (bits / 8) b.

(** A state as a zero-initialized structure holds it. *)
Definition blank : garbled_circuit_m_t unit N unit :=
  {| m_bufr := []; m_hash := tt; m_R := 0; m_ot_keys := []; m_prng := 0;
     m_gate_ix := 0; m_gen_inp_hash_ix := 0; m_gen_inp_ix := 0;
     m_evl_inp_ix := 0; m_gen_out_ix := 0; m_evl_out_ix := 0;
     m_clear_mask := 0; m_gen_inp_mask := []; m_gen_inp := [];
     m_evl_inp := []; m_gen_out := []; m_evl_out := [];
     m_gen_inp_com := []; m_gen_inp_decom := []; m_gen_inp_hash := [];
     m_o_bufr := []; m_i_bufr := []; m_i_bufr_ix := 0; m_st := tt;
     m_gen_inp_cnt := 0; m_evl_inp_cnt := 0; m_const_wire := (0, 0) |}.

(** A session in mid-flight: ten generator-output bits and three
    evaluator-output bits produced, bytes staged in both buffers. *)
Definition busy : garbled_circuit_m_t unit N unit :=
  set_m_gen_out_ix 10 (set_m_evl_out_ix 3
    (set_m_gen_out [x05; x03; x00; x00] (set_m_evl_out [x07; x00]
      (set_m_o_bufr [xaa; xbb; xcc] (set_m_i_bufr [x01; x02]
        (set_m_i_bufr_ix 2 (set_m_gate_ix 7 blank))))))).

(** A state whose generator-output index is the largest [uint32_t]. *)
Definition full : garbled_circuit_m_t unit N unit :=
  set_m_gen_out_ix 4294967295 (set_m_gen_out [x01; x02; x03] blank).

(** A state whose hash index was advanced by an earlier run. *)
Definition stale : garbled_circuit_m_t unit N unit :=
  set_m_gen_inp_hash_ix 5 (set_m_gate_ix 9 (set_m_o_bufr [x01] blank)).

(** Two commitments with their openings under [toy_hash] at 16 bits. *)
Definition audited : garbled_circuit_m_t unit N unit :=
  set_m_gen_inp_decom [[x0a; x0b; x0c]; [x01]]
    (set_m_gen_inp_com [[x0a; x0b]; [x01; x00]] blank).

(** The same commitments, the second opening altered. *)
Definition tampered : garbled_circuit_m_t unit N unit :=
  set_m_gen_inp_decom [[x0a; x0b; x0c]; [x02]]
    (set_m_gen_inp_com [[x0a; x0b]; [x01; x00]] blank).

(** The state [init] returns from [busy] at 80 bits. *)
Definition reset : garbled_circuit_m_t unit N unit :=
  match init 80 10 busy with
  | Some cct => cct
  | None => blank
  end.


(** Both output indices within seven of the top of [uint32_t]. *)
Definition brimming : garbled_circuit_m_t unit N unit :=
  set_m_evl_out_ix 4294967290 (set_m_evl_out [x09] full).

(** Sixteen bytes in memory, and the register they load to. *)
Definition sixteen : Bytes.t :=
  [x10; x11; x12; x13; x14; x15; x16; x17; x18; x19; x1a; x1b; x1c; x1d; x1e; x1f].
Definition sixteen_reg : N := 0x1f1e1d1c1b1a19181716151413121110.

(** * Properties *)

(** ** Arithmetic and containers *)

(** Linear arithmetic over the quotient and remainder of [n] by 8, from
    [n = 8 * (n / 8) + n mod 8] and [n mod 8 < 8]. *)
Ltac lia_div8 n :=
  let Hdm := fresh "Hdm" in
  let Hr := fresh "Hr" in
  pose proof (N.div_mod n 8 ltac:(lia)) as Hdm;
  pose proof (N.mod_upper_bound n 8 ltac:(lia)) as Hr;
  generalize dependent (n / 8); generalize dependent (n mod 8); intros; lia.

Lemma ceil_div8_add7 (n : N) : ceil_div8 n = (n + 7) / 8.
Proof.
  unfold ceil_div8.
  destruct (N.eqb_spec (n mod 8) 0) as [H0 | H0].
  - apply (N.div_unique _ _ _ 7); lia_div8 n.
  - apply (N.div_unique _ _ _ (n mod 8 - 1)); lia_div8 n.
Qed.

Lemma add32_small (a b : N) : a + b < UINT32_MOD -> add32 a b = a + b.
Proof. intros H. unfold add32. now apply N.mod_small. Qed.

Lemma size_resize (n : N) (b : Bytes.t) : Bytes.size (Bytes.resize n b) = n.
Proof. unfold Bytes.size, Bytes.resize. rewrite length_resize. lia. Qed.

Lemma resize_resize (n : N) (b : Bytes.t) :
  Bytes.resize n (Bytes.resize n b) = Bytes.resize n b.
Proof. unfold Bytes.resize. apply resize_idemp. Qed.

(** ** [trim_output] *)

Section TrimOutput.

Context {Hash Prng PCFState : Type}.
Implicit Types cct : garbled_circuit_m_t Hash Prng PCFState.

(** What [trim_output] writes, for every state. *)
Lemma trim_output_gen_out cct :
  m_gen_out (trim_output cct)
  = Bytes.resize (add32 (m_gen_out_ix cct) 7 / 8) (m_gen_out cct).
Proof. reflexivity. Qed.

Lemma trim_output_evl_out cct :
  m_evl_out (trim_output cct)
  = Bytes.resize (add32 (m_evl_out_ix cct) 7 / 8) (m_evl_out cct).
Proof. reflexivity. Qed.

Lemma trim_output_indices cct :
  m_gen_out_ix (trim_output cct) = m_gen_out_ix cct
  /\ m_evl_out_ix (trim_output cct) = m_evl_out_ix cct.
Proof. split; reflexivity. Qed.

(** C4, as the code has it: when an output index is not within seven
    of the top of [uint32_t], so that [ix + 7] does not wrap,
    [trim_output] leaves the buffer of that index with exactly
    [ceil(ix / 8)] bytes: [ceil(m_gen_out_ix / 8)] for the
    generator-output buffer, [ceil(m_evl_out_ix / 8)] for the
    evaluator-output buffer; with [m_gen_out_ix = 10] the
    generator-output buffer has 2 bytes. *)
Theorem trim_output_sizes cct :
  (m_gen_out_ix cct + 7 < UINT32_MOD ->
   Bytes.size (m_gen_out (trim_output cct)) = ceil_div8 (m_gen_out_ix cct))
  /\ (m_evl_out_ix cct + 7 < UINT32_MOD ->
      Bytes.size (m_evl_out (trim_output cct)) = ceil_div8 (m_evl_out_ix cct))
  /\ (m_gen_out_ix cct = 10 ->
      Bytes.size (m_gen_out (trim_output cct)) = 2).
Proof.
  rewrite trim_output_gen_out, trim_output_evl_out, !size_resize.
  split; [| split].
  - intros Hgen. now rewrite add32_small, ceil_div8_add7.
  - intros Hevl. now rewrite add32_small, ceil_div8_add7.
  - intros ->. reflexivity.
Qed.

(** C10: [trim_output] is idempotent; a second application changes
    nothing, in the output buffers or anywhere else in the state. *)
Theorem trim_output_idempotent cct :
  trim_output (trim_output cct) = trim_output cct.
Proof.
  destruct cct. unfold trim_output. cbn.
  now rewrite !resize_resize.
Qed.

End TrimOutput.

(** ** [send] and [recv] *)

Section Transport.

Context {Hash Prng PCFState : Type}.
Implicit Types cct : garbled_circuit_m_t Hash Prng PCFState.

(** C5: [send] returns the staged bytes and leaves the outgoing buffer
    empty, so a second [send] right after it returns nothing. *)
Theorem send_extracts cct :
  fst (send cct) = m_o_bufr cct
  /\ m_o_bufr (snd (send cct)) = []
  /\ fst (send (snd (send cct))) = [].
Proof. repeat split. Qed.

(** C6: [recv] makes the incoming buffer hold exactly the delivered
    bytes, whatever it held before, and puts the read cursor at its
    start. *)
Theorem recv_replaces cct (i_data : Bytes.t) :
  m_i_bufr (recv cct i_data) = i_data
  /\ m_i_bufr_ix (recv cct i_data) = 0.
Proof. split; reflexivity. Qed.

End Transport.

(** ** [pass_check] *)

Section PassCheck.

Context {Hash Prng PCFState : Type}.
Variable k : N.
Variable hash : Bytes.t -> N -> Bytes.t.
Implicit Types cct : garbled_circuit_m_t Hash Prng PCFState.

(** The loop, started at [ix] with [n] indices left inside both vectors,
    runs to its end, and what it returns is the accumulator it was given
    together with the verdict on every index it visited. *)
Lemma pass_check_loop_spec cct (n ix : nat) (pass_chk : bool) :
  (ix + n <= length (m_gen_inp_decom cct))%nat ->
  (ix + n <= length (m_gen_inp_com cct))%nat ->
  exists r,
    pass_check_loop k hash cct n ix pass_chk = Some r
    /\ (r = true <->
        pass_chk = true /\ forall j, (ix <= j < ix + n)%nat -> opens_at k hash cct j).
Proof.
  revert ix pass_chk.
  induction n as [| n IH]; intros ix pass_chk Hd Hc; cbn [pass_check_loop].
  - exists pass_chk. split; [reflexivity |].
    split; [intros ->; split; [reflexivity | intros j Hj; lia] | tauto].
  - destruct (lookup_lt_is_Some_2 (m_gen_inp_decom cct) ix ltac:(lia)) as [d Ed].
    destruct (lookup_lt_is_Some_2 (m_gen_inp_com cct) ix ltac:(lia)) as [c Ec].
    rewrite Ed, Ec.
    destruct (IH (S ix) (pass_chk && bool_decide (hash d k = c))
                ltac:(lia) ltac:(lia)) as (r & Er & Hr).
    exists r. split; [exact Er |].
    rewrite Hr, andb_true_iff, bool_decide_eq_true.
    split.
    + intros [[Hp Hh] Hrest]. split; [exact Hp |].
      intros j Hj. destruct (decide (j = ix)) as [-> | Hne].
      * intros d' c' Ed' Ec'. congruence.
      * apply Hrest. lia.
    + intros [Hp Hall]. split; [split; [exact Hp |] |].
      * apply (Hall ix); [lia | exact Ed | exact Ec].
      * intros j Hj. apply Hall. lia.
Qed.

(** [pass_check] on vectors of one size: it returns, and its result is
    the verdict on every index. *)
Lemma pass_check_spec cct :
  length (m_gen_inp_decom cct) = length (m_gen_inp_com cct) ->
  exists r,
    pass_check k hash cct = Some r
    /\ (r = true <-> forall ix, opens_at k hash cct ix).
Proof.
  intros Hlen. unfold pass_check.
  rewrite decide_True by exact Hlen.
  destruct (pass_check_loop_spec cct (length (m_gen_inp_decom cct)) 0 true
              ltac:(lia) ltac:(lia)) as (r & Er & Hr).
  exists r. split; [exact Er |].
  rewrite Hr. split.
  - intros [_ Hall] ix decom com Ed Ec.
    apply (Hall ix); [| exact Ed | exact Ec].
    apply lookup_lt_Some in Ed. lia.
  - intros Hall. split; [reflexivity | intros j _; apply Hall].
Qed.

(** C1: on a state whose decommitment and commitment vectors have the
    same length, [pass_check] returns [true] exactly when, at every
    index, the hash of the stored decommitment at security parameter
    [Env::k()] equals the stored commitment byte for byte. *)
Theorem pass_check_iff cct :
  length (m_gen_inp_decom cct) = length (m_gen_inp_com cct) ->
  exists r,
    pass_check k hash cct = Some r
    /\ (r = true <->
        forall ix decom com,
          m_gen_inp_decom cct !! ix = Some decom ->
          m_gen_inp_com cct !! ix = Some com ->
          hash decom k = com).
Proof. intros Hlen. exact (pass_check_spec cct Hlen). Qed.


(** The assertion is all that can stop [pass_check]. *)
Lemma pass_check_aborts_iff cct :
  pass_check k hash cct = None
  <-> length (m_gen_inp_decom cct) <> length (m_gen_inp_com cct).
Proof.
  split.
  - intros Hnone Hlen.
    destruct (pass_check_spec cct Hlen) as (r & Er & _). congruence.
  - intros Hne. unfold pass_check. now rewrite decide_False.
Qed.

(** C9: with no commitments and no decommitments [pass_check] returns
    [true]. *)
Theorem pass_check_empty cct :
  m_gen_inp_com cct = [] ->
  m_gen_inp_decom cct = [] ->
  pass_check k hash cct = Some true.
Proof.
  intros Hc Hd. unfold pass_check. rewrite Hc, Hd. reflexivity.
Qed.

End PassCheck.

(** ** Bits of bytes and of byte sequences *)

Lemma to_N_lt_256 (x : byte) : Byte.to_N x < 256.
Proof. pose proof (Byte.to_N_bounded x). lia. Qed.

Lemma to_N_byte_of_N (n : N) : n < 256 -> Byte.to_N (byte_of_N n) = n.
Proof.
  intros Hn. unfold byte_of_N. rewrite N.mod_small by exact Hn.
  destruct (Byte.of_N n) as [b |] eqn:E.
  - now apply Byte.to_of_N.
  - apply Byte.of_N_None_iff in E. lia.
Qed.

Lemma testbit_above (a n i : N) : a < 2 ^ n -> n <= i -> N.testbit a i = false.
Proof.
  intros Ha Hi. rewrite <- (N.mod_small a (2 ^ n)) by exact Ha.
  now apply N.mod_pow2_bits_high.
Qed.

Lemma testbit_byte_high (x : byte) (i : N) :
  8 <= i -> N.testbit (Byte.to_N x) i = false.
Proof.
  intros Hi. apply (testbit_above _ 8); [| exact Hi].
  pose proof (to_N_lt_256 x). change (2 ^ 8) with 256. lia.
Qed.

Lemma setbit_lt_256 (a j : N) : a < 256 -> j < 8 -> N.setbit a j < 256.
Proof.
  intros Ha Hj.
  destruct (N.lt_ge_cases (N.setbit a j) (2 ^ 8)) as [Hlt | Hge]; [exact Hlt |].
  exfalso.
  pose proof (N.log2_le_mono _ _ Hge) as Hlog.
  rewrite N.log2_pow2 in Hlog by lia.
  assert (Hne : N.setbit a j <> 0).
  { intros E. rewrite E in Hge. change (2 ^ 8) with 256 in Hge. lia. }
  pose proof (N.bit_log2 _ Hne) as Htop.
  rewrite N.setbit_eqb in Htop.
  apply orb_true_iff in Htop as [Htop | Htop].
  - apply N.eqb_eq in Htop. lia.
  - rewrite (testbit_above a 8) in Htop; [discriminate | exact Ha | exact Hlog].
Qed.

Lemma to_N_byte_set_bit (x : byte) (j : N) :
  j < 8 -> Byte.to_N (byte_set_bit x j true) = N.setbit (Byte.to_N x) j.
Proof.
  intros Hj. unfold byte_set_bit.
  apply to_N_byte_of_N, setbit_lt_256; [apply to_N_lt_256 | exact Hj].
Qed.

Lemma get_ith_bit_make (n j : N) : Bytes.get_ith_bit j (Bytes.make n) = false.
Proof.
  unfold Bytes.get_ith_bit, Bytes.make.
  destruct (replicate _ _ !! _) as [x |] eqn:E; [| reflexivity].
  apply lookup_replicate in E as [-> _]. apply N.bits_0.
Qed.

(** The register loaded from a byte sequence has the sequence's bits. *)
Lemma testbit_le_combine (b : Bytes.t) (i : N) :
  N.testbit (le_combine b) i = Bytes.get_ith_bit i b.
Proof.
  revert i. induction b as [| x rest IH]; intros i; cbn [le_combine].
  - now rewrite N.bits_0.
  - rewrite N.lor_spec. unfold Bytes.get_ith_bit.
    destruct (N.lt_ge_cases i 8) as [Hlo | Hhi].
    + rewrite N.shiftl_spec_low, orb_false_r by exact Hlo.
      now rewrite N.div_small, N.mod_small by exact Hlo.
    + rewrite testbit_byte_high, N.shiftl_spec_high' by exact Hhi.
      cbn [orb]. rewrite IH. unfold Bytes.get_ith_bit.
      assert (Hq : i / 8 = (i - 8) / 8 + 1).
      { rewrite <- N.div_add by lia. f_equal. lia. }
      assert (Hm : i mod 8 = (i - 8) mod 8).
      { rewrite <- (N.Div0.mod_add (i - 8) 1 8). f_equal. lia. }
      rewrite Hq, Hm.
      replace (N.to_nat ((i - 8) / 8 + 1)) with (S (N.to_nat ((i - 8) / 8))) by lia.
      reflexivity.
Qed.

(** Two positions are the same when byte and bit-in-byte agree. *)
Lemma position_eq (i j : N) : i = j <-> i / 8 = j / 8 /\ i mod 8 = j mod 8.
Proof.
  split; [intros ->; split; reflexivity |].
  intros [Hq Hr].
  rewrite (N.div_mod i 8), (N.div_mod j 8) by lia. now rewrite Hq, Hr.
Qed.

(** [set_ith_bit] sets its bit and no other. *)
Lemma get_set_ith_bit (ix : N) (b b' : Bytes.t) :
  Bytes.set_ith_bit ix true b = Some b' ->
  length b' = length b
  /\ forall j, Bytes.get_ith_bit j b' = (j =? ix) || Bytes.get_ith_bit j b.
Proof.
  unfold Bytes.set_ith_bit.
  destruct (b !! N.to_nat (ix / 8)) as [x |] eqn:E; [| discriminate].
  intros [= <-]. split; [apply length_insert |].
  intros j. unfold Bytes.get_ith_bit.
  pose proof (N.mod_upper_bound ix 8 ltac:(lia)) as Hr.
  destruct (decide (j / 8 = ix / 8)) as [Hq | Hq].
  - rewrite Hq, list_lookup_insert_eq, E by (eapply lookup_lt_Some; exact E).
    rewrite to_N_byte_set_bit, N.setbit_eqb by exact Hr.
    f_equal.
    destruct (N.eqb_spec (ix mod 8) (j mod 8)) as [Hm | Hm];
      destruct (N.eqb_spec j ix) as [Hj | Hj]; try reflexivity; exfalso.
    + apply Hj, position_eq. split; [exact Hq | now symmetry].
    + apply Hm. now rewrite Hj.
  - rewrite list_lookup_insert_ne by lia.
    destruct (N.eqb_spec j ix) as [Hj | Hj]; [| reflexivity].
    exfalso. apply Hq. now rewrite Hj.
Qed.

(** The loop of [init] stays inside a buffer that has room for the bits
    it sets, and sets exactly the bits [ix .. ix + n - 1]. *)
Lemma init_mask_loop_spec (n : nat) (ix : N) (tmp : Bytes.t) :
  ix + N.of_nat n <= 8 * Bytes.size tmp ->
  exists tmp',
    init_mask_loop n ix tmp = Some tmp'
    /\ length tmp' = length tmp
    /\ forall j, Bytes.get_ith_bit j tmp'
                 = ((ix <=? j) && (j <? ix + N.of_nat n)) || Bytes.get_ith_bit j tmp.
Proof.
  revert ix tmp. induction n as [| n IH]; intros ix tmp Hroom; cbn [init_mask_loop].
  - exists tmp. repeat split. intros j.
    destruct (N.leb_spec ix j); destruct (N.ltb_spec j (ix + N.of_nat 0));
      try reflexivity; lia.
  - unfold Bytes.size in Hroom.
    assert (Hin : (N.to_nat (ix / 8) < length tmp)%nat).
    { assert (ix / 8 < N.of_nat (length tmp)); [| lia].
      apply N.Div0.div_lt_upper_bound. lia. }
    destruct (Bytes.set_ith_bit ix true tmp) as [tmp1 |] eqn:E.
    2:{ unfold Bytes.set_ith_bit in E.
        destruct (lookup_lt_is_Some_2 tmp _ Hin) as [x Ex].
        rewrite Ex in E. discriminate. }
    destruct (get_set_ith_bit ix tmp tmp1 E) as [Hlen Hbits].
    destruct (IH (N.succ ix) tmp1) as (tmp' & Eloop & Hlen' & Hbits').
    { unfold Bytes.size. rewrite Hlen. lia. }
    exists tmp'. split; [exact Eloop |]. split; [congruence |].
    intros j. rewrite Hbits', Hbits.
    destruct (N.leb_spec (N.succ ix) j); destruct (N.ltb_spec j (N.succ ix + N.of_nat n));
      destruct (N.eqb_spec j ix); destruct (N.leb_spec ix j);
      destruct (N.ltb_spec j (ix + N.of_nat (S n)));
      try reflexivity; try lia; cbn; now rewrite ?orb_true_r.
Qed.

(** ** [init] *)

Section Init.

Context {Hash Prng PCFState : Type}.
Variables k key_size_in_bytes : N.
Implicit Types cct : garbled_circuit_m_t Hash Prng PCFState.

(** With at most 128 bits to set, the loop of [init] fills the scratch
    buffer and the register loaded from it is [2^k - 1]. *)
Lemma init_clear_mask :
  k <= 128 ->
  exists tmp,
    init_mask_loop (N.to_nat k) 0 (Bytes.make 16) = Some tmp
    /\ _mm_loadu_si128 tmp = Some (N.ones k).
Proof.
  intros Hk.
  destruct (init_mask_loop_spec (N.to_nat k) 0 (Bytes.make 16))
    as (tmp & Eloop & Hlen & Hbits).
  { unfold Bytes.size, Bytes.make. rewrite length_replicate. lia. }
  exists tmp. split; [exact Eloop |].
  assert (Hlen16 : length tmp = 16%nat).
  { rewrite Hlen. unfold Bytes.make. now rewrite length_replicate. }
  unfold _mm_loadu_si128, Bytes.size.
  rewrite decide_True by lia.
  rewrite take_ge by lia.
  f_equal. apply N.bits_inj. intros i.
  rewrite testbit_le_combine, Hbits, get_ith_bit_make, orb_false_r.
  rewrite N2Nat.id, N.add_0_l.
  destruct (N.ltb_spec i k) as [Hlt | Hge].
  - rewrite N.ones_spec_low by exact Hlt.
    destruct (N.leb_spec 0 i); [reflexivity | lia].
  - rewrite N.ones_spec_high by exact Hge. apply andb_false_r.
Qed.

(** The loop leaves a buffer too small for the bits it is asked to
    set. *)
Lemma init_mask_loop_overrun (n : nat) (ix : N) (tmp : Bytes.t) :
  ix <= 8 * Bytes.size tmp ->
  8 * Bytes.size tmp < ix + N.of_nat n ->
  init_mask_loop n ix tmp = None.
Proof.
  revert ix tmp. induction n as [| n IH]; intros ix tmp Hlo Hhi; [lia |].
  cbn [init_mask_loop].
  destruct (Bytes.set_ith_bit ix true tmp) as [tmp1 |] eqn:E; [| reflexivity].
  destruct (get_set_ith_bit ix tmp tmp1 E) as [Hlen _].
  unfold Bytes.set_ith_bit in E.
  destruct (tmp !! N.to_nat (ix / 8)) as [x |] eqn:Ex; [| discriminate].
  apply lookup_lt_Some in Ex.
  assert (Hix : ix < 8 * Bytes.size tmp).
  { unfold Bytes.size. lia_div8 ix. }
  apply IH; unfold Bytes.size in *; rewrite Hlen; lia.
Qed.

(** A security parameter above 128 takes [init] outside its 16-byte
    scratch buffer. *)
Lemma init_aborts_above_128 cct :
  128 < k -> init k key_size_in_bytes cct = None.
Proof.
  intros Hk. unfold init.
  rewrite init_mask_loop_overrun; [reflexivity | |];
    unfold Bytes.size, Bytes.make; rewrite length_replicate; lia.
Qed.

(** [init] writes neither [m_R] nor the hash index. *)
Lemma init_frame cct cct' :
  init k key_size_in_bytes cct = Some cct' ->
  m_R cct' = m_R cct /\ m_gen_inp_hash_ix cct' = m_gen_inp_hash_ix cct.
Proof.
  unfold init.
  destruct (init_mask_loop _ _ _) as [tmp |]; [| discriminate].
  destruct (_mm_loadu_si128 tmp) as [mask |]; [| discriminate].
  intros [= <-]. split; reflexivity.
Qed.

(** C7, as the code has it: for a security parameter of at most 128
    bits, [init] returns a state in which the gate counter and the four
    input and output index counters are zero, the outgoing buffer is
    empty and the clear-mask has exactly its low [Env::k()] bits set;
    the hash index [m_gen_inp_hash_ix] is not among the counters [init]
    resets and keeps the value it had. *)
Theorem init_resets cct :
  k <= 128 ->
  exists cct',
    init k key_size_in_bytes cct = Some cct'
    /\ m_gate_ix cct' = 0
    /\ m_gen_inp_ix cct' = 0
    /\ m_evl_inp_ix cct' = 0
    /\ m_gen_out_ix cct' = 0
    /\ m_evl_out_ix cct' = 0
    /\ m_gen_inp_hash_ix cct' = m_gen_inp_hash_ix cct
    /\ m_o_bufr cct' = []
    /\ m_clear_mask cct' = N.ones k
    /\ forall i, N.testbit (m_clear_mask cct') i = (i <? k).
Proof.
  intros Hk.
  destruct (init_clear_mask Hk) as (tmp & Eloop & Eload).
  unfold init. rewrite Eloop, Eload.
  eexists. split; [reflexivity |]. cbn.
  repeat (split; [reflexivity |]).
  intros i. destruct (N.ltb_spec i k) as [Hlt | Hge].
  - now apply N.ones_spec_low.
  - now apply N.ones_spec_high.
Qed.

End Init.

(** ** Bytes of a register: the macro [_mm_extract_epi8] *)

Lemma testbit_ones (n i : N) : N.testbit (N.ones n) i = (i <? n).
Proof.
  destruct (N.ltb_spec i n) as [H | H].
  - now apply N.ones_spec_low.
  - now apply N.ones_spec_high.
Qed.

Lemma testbit_land_ones (a n i : N) :
  N.testbit (N.land a (N.ones n)) i = N.testbit a i && (i <? n).
Proof. now rewrite N.land_spec, testbit_ones. Qed.

Lemma extract_pack_epi16 (lanes : list N) (j : nat) (l : N) :
  lanes !! j = Some l ->
  N.land (N.shiftr (pack_epi16 lanes) (N.of_nat j * 16)) 0xffff = N.land l 0xffff.
Proof.
  change 0xffff with (N.ones 16).
  revert j. induction lanes as [| l0 rest IH]; intros j Hj; [discriminate |].
  apply N.bits_inj. intros i. rewrite !testbit_land_ones.
  destruct (N.ltb_spec i 16) as [Hi | Hi]; [| now rewrite !andb_false_r].
  rewrite !andb_true_r, N.shiftr_spec by lia. cbn [pack_epi16].
  change 0xffff with (N.ones 16).
  rewrite N.lor_spec, testbit_land_ones.
  destruct j as [| j]; cbn in Hj.
  - injection Hj as ->. rewrite N.shiftl_spec_low by lia.
    replace (i + N.of_nat 0 * 16) with i by lia.
    destruct (N.ltb_spec i 16); [| lia]. now rewrite andb_true_r, orb_false_r.
  - destruct (N.ltb_spec (i + N.of_nat (S j) * 16) 16); [lia |].
    rewrite andb_false_r, orb_false_l, N.shiftl_spec_high' by lia.
    specialize (IH j Hj).
    apply (f_equal (fun x => N.testbit x i)) in IH.
    rewrite !testbit_land_ones in IH.
    destruct (N.ltb_spec i 16); [| lia]. rewrite !andb_true_r in IH.
    rewrite N.shiftr_spec in IH by lia. rewrite <- IH. f_equal. lia.
Qed.

Lemma land_7_lt (n : N) : N.land n 7 < 8.
Proof.
  change 7 with (N.ones 3). rewrite N.land_ones.
  apply N.mod_upper_bound. discriminate.
Qed.

Lemma extract_epi16_lt (a imm8 : N) : _mm_extract_epi16 a imm8 < 2 ^ 16.
Proof.
  unfold _mm_extract_epi16. change 0xffff with (N.ones 16).
  rewrite N.land_ones. apply N.mod_upper_bound. discriminate.
Qed.

(** A lane of the shifted register is the shifted lane. *)
Lemma extract_srli_epi16 (a s imm8 : N) :
  _mm_extract_epi16 (_mm_srli_epi16 a s) imm8
  = if 15 <? s then 0 else N.shiftr (_mm_extract_epi16 a imm8) s.
Proof.
  pose proof (land_7_lt imm8) as Hj.
  unfold _mm_extract_epi16 at 1. unfold _mm_srli_epi16.
  rewrite <- (N2Nat.id (N.land imm8 7)) at 1.
  erewrite extract_pack_epi16.
  2:{ rewrite !list_lookup_fmap, lookup_seq_lt by lia. cbn. reflexivity. }
  rewrite N2Nat.id.
  replace (_mm_extract_epi16 a (N.land imm8 7)) with (_mm_extract_epi16 a imm8).
  2:{ unfold _mm_extract_epi16. do 3 f_equal.
      change 7 with (N.ones 3). rewrite !N.land_ones.
      now rewrite N.Div0.mod_mod. }
  destruct (15 <? s); [reflexivity |].
  change 0xffff with (N.ones 16). rewrite N.land_ones.
  apply N.mod_small.
  pose proof (extract_epi16_lt a imm8) as Hlt.
  rewrite N.shiftr_div_pow2.
  eapply N.le_lt_trans; [| exact Hlt].
  apply N.Div0.div_le_upper_bound.
  pose proof (N.pow_nonzero 2 s ltac:(lia)).
  nia.
Qed.

(** The macro extracts a byte of the register: byte [imm mod 16]. *)
Lemma extract_epi8_byte (x imm : N) :
  _mm_extract_epi8 x imm = N.land (N.shiftr x (8 * (imm mod 16))) 0xff.
Proof.
  unfold _mm_extract_epi8.
  assert (Hlane : N.land (N.shiftr imm 1) 7 = (imm mod 16) / 2).
  { change 7 with (N.ones 3). rewrite N.land_ones, N.shiftr_div_pow2.
    change (2 ^ 1) with 2. change (2 ^ 3) with 8. change 16 with (2 * 8).
    rewrite (N.Div0.mod_mul_r imm 2 8).
    rewrite N.mul_comm, N.div_add by lia.
    rewrite (N.div_small (imm mod 2)) by (apply N.mod_upper_bound; lia).
    reflexivity. }
  assert (Hpar : N.land imm 1 = (imm mod 16) mod 2).
  { change 1 with (N.ones 1). rewrite N.land_ones. change (2 ^ 1) with 2.
    change 16 with (2 * 8).
    rewrite (N.Div0.mod_mul_r imm 2 8).
    rewrite N.mul_comm, N.Div0.mod_add. now rewrite N.Div0.mod_mod. }
  pose proof (N.div_mod (imm mod 16) 2 ltac:(lia)) as Hdm.
  pose proof (N.mod_upper_bound (imm mod 16) 2 ltac:(lia)) as Hr.
  rewrite Hpar.
  destruct (N.eqb_spec ((imm mod 16) mod 2) 0) as [Heven | Hodd].
  - unfold _mm_extract_epi16. rewrite Hlane.
    replace (8 * (imm mod 16)) with ((imm mod 16) / 2 * 16) by lia.
    change 0xffff with (N.ones 16). change 0xff with (N.ones 8).
    apply N.bits_inj. intros i. rewrite !testbit_land_ones.
    destruct (N.ltb_spec i 8); destruct (N.ltb_spec i 16);
      try lia; now rewrite ?andb_true_r, ?andb_false_r.
  - rewrite extract_srli_epi16. cbn [N.ltb N.compare Pos.compare Pos.compare_cont].
    unfold _mm_extract_epi16. rewrite Hlane.
    replace (8 * (imm mod 16)) with ((imm mod 16) / 2 * 16 + 8) by lia.
    change 0xffff with (N.ones 16). change 0xff with (N.ones 8).
    apply N.bits_inj. intros i.
    rewrite N.shiftr_spec, !testbit_land_ones, !N.shiftr_spec by lia.
    destruct (N.ltb_spec i 8); destruct (N.ltb_spec (i + 8) 16);
      try lia; rewrite ?andb_true_r, ?andb_false_r; try reflexivity.
    f_equal. lia.
Qed.

(** X1: for a byte position [imm] in [0..15] the macro
    [_mm_extract_epi8] returns byte [imm] of the register, whichever of
    its two branches is taken. *)
Theorem extract_epi8_selects_byte (x imm : N) :
  imm < 16 ->
  _mm_extract_epi8 x imm = (x / 2 ^ (8 * imm)) mod 256.
Proof.
  intros Himm. rewrite extract_epi8_byte, N.mod_small by exact Himm.
  change 0xff with (N.ones 8).
  now rewrite N.land_ones, N.shiftr_div_pow2.
Qed.

Lemma byte_of_le_combine (b : Bytes.t) (i : nat) (v : byte) :
  b !! i = Some v ->
  N.land (N.shiftr (le_combine b) (8 * N.of_nat i)) 0xff = Byte.to_N v.
Proof.
  intros Hv. change 0xff with (N.ones 8).
  apply N.bits_inj. intros j.
  rewrite testbit_land_ones, N.shiftr_spec, testbit_le_combine by lia.
  destruct (N.ltb_spec j 8) as [Hj | Hj].
  - rewrite andb_true_r. unfold Bytes.get_ith_bit.
    replace (j + 8 * N.of_nat i) with (j + N.of_nat i * 8) by lia.
    rewrite N.div_add, N.Div0.mod_add, N.div_small, N.mod_small by lia.
    rewrite N.add_0_l, Nat2N.id, Hv. reflexivity.
  - rewrite andb_false_r. symmetry. now apply testbit_byte_high.
Qed.

(** X2: a register loaded from memory gives back, through the macro
    [_mm_extract_epi8], the byte stored at each of its sixteen
    positions. *)
Theorem extract_epi8_loadu (b : Bytes.t) (i : nat) (v : byte) :
  16 <= Bytes.size b ->
  (i < 16)%nat ->
  b !! i = Some v ->
  exists x,
    _mm_loadu_si128 b = Some x
    /\ _mm_extract_epi8 x (N.of_nat i) = Byte.to_N v.
Proof.
  intros Hsize Hi Hv. unfold _mm_loadu_si128.
  rewrite decide_True by exact Hsize.
  eexists. split; [reflexivity |].
  rewrite extract_epi8_byte, N.mod_small by lia.
  apply byte_of_le_combine. now rewrite lookup_take_lt.
Qed.

(** ** More on [init] *)

Section InitReuse.
Context {Hash Prng PCFState : Type}.
Variables k key_size_in_bytes : N.
Variable hash : Bytes.t -> N -> Bytes.t.
Implicit Types cct : garbled_circuit_m_t Hash Prng PCFState.

(** X3: [init] returns exactly when the security parameter is at most
    128 bits, the capacity of its 16-byte scratch buffer; above that its
    loop sets a bit outside the buffer. *)
Theorem init_returns_iff cct :
  is_Some (init k key_size_in_bytes cct) <-> k <= 128.
Proof.
  split.
  - intros [cct' E]. destruct (N.le_gt_cases k 128) as [Hk | Hk]; [exact Hk |].
    rewrite init_aborts_above_128 in E by lia. discriminate.
  - intros Hk. destruct (init_clear_mask k Hk) as (tmp & Eloop & Eload).
    unfold init. rewrite Eloop, Eload. eexists. reflexivity.
Qed.

Lemma init_Some_inv cct cct' :
  init k key_size_in_bytes cct = Some cct' ->
  exists mask,
    cct' = set_m_clear_mask mask
             (set_m_gen_inp_hash (Bytes.assign key_size_in_bytes x00)
               (set_m_o_bufr Bytes.clear
                 (set_m_evl_out_ix 0 (set_m_gen_out_ix 0 (set_m_evl_inp_ix 0
                   (set_m_gen_inp_ix 0 (set_m_gate_ix 0 cct)))))))
    /\ forall c : garbled_circuit_m_t Hash Prng PCFState,
         init k key_size_in_bytes c
         = Some (set_m_clear_mask mask
             (set_m_gen_inp_hash (Bytes.assign key_size_in_bytes x00)
               (set_m_o_bufr Bytes.clear
                 (set_m_evl_out_ix 0 (set_m_gen_out_ix 0 (set_m_evl_inp_ix 0
                   (set_m_gen_inp_ix 0 (set_m_gate_ix 0 c)))))))).
Proof.
  unfold init.
  destruct (init_mask_loop _ _ _) as [tmp |]; [| discriminate].
  destruct (_mm_loadu_si128 tmp) as [mask |]; [| discriminate].
  intros [= <-]. exists mask. split; reflexivity.
Qed.

(** X4: [init] resets counters and the outgoing buffer but keeps the
    rest of the state: the output buffers and the incoming buffer with
    its cursor are not cleared, and inputs, commitments, offset,
    constant-wire keys and collaborators' handles are untouched. *)
Theorem init_keeps cct cct' :
  init k key_size_in_bytes cct = Some cct' ->
  m_gen_out cct' = m_gen_out cct
  /\ m_evl_out cct' = m_evl_out cct
  /\ m_i_bufr cct' = m_i_bufr cct
  /\ m_i_bufr_ix cct' = m_i_bufr_ix cct
  /\ m_gen_inp_mask cct' = m_gen_inp_mask cct
  /\ m_gen_inp cct' = m_gen_inp cct
  /\ m_evl_inp cct' = m_evl_inp cct
  /\ m_gen_inp_com cct' = m_gen_inp_com cct
  /\ m_gen_inp_decom cct' = m_gen_inp_decom cct
  /\ m_R cct' = m_R cct
  /\ m_const_wire cct' = m_const_wire cct
  /\ m_ot_keys cct' = m_ot_keys cct
  /\ m_prng cct' = m_prng cct
  /\ m_hash cct' = m_hash cct
  /\ m_bufr cct' = m_bufr cct
  /\ m_st cct' = m_st cct
  /\ m_gen_inp_cnt cct' = m_gen_inp_cnt cct
  /\ m_evl_inp_cnt cct' = m_evl_inp_cnt cct
  /\ m_gen_inp_hash_ix cct' = m_gen_inp_hash_ix cct.
Proof.
  intros E. destruct (init_Some_inv cct cct' E) as (mask & -> & _).
  repeat split.
Qed.

(** X5: [init] is idempotent; on the state it returned it returns the
    same state again. *)
Theorem init_idempotent cct cct' :
  init k key_size_in_bytes cct = Some cct' ->
  init k key_size_in_bytes cct' = Some cct'.
Proof.
  intros E. destruct (init_Some_inv cct cct' E) as (mask & -> & Hall).
  clear E. rewrite Hall. destruct cct. vm_compute. reflexivity.
Qed.

(** X6: [trim_output] right after [init] empties both output buffers,
    which [init] itself left as they were. *)
Theorem init_then_trim_output cct cct' :
  init k key_size_in_bytes cct = Some cct' ->
  m_gen_out (trim_output cct') = [] /\ m_evl_out (trim_output cct') = [].
Proof.
  intros E. destruct (init_Some_inv cct cct' E) as (mask & -> & _).
  split; [rewrite trim_output_gen_out | rewrite trim_output_evl_out];
    apply resize_0.
Qed.

End InitReuse.

(** ** More on [pass_check] *)

Section PassCheckAlgebra.
Context {Hash Prng PCFState : Type}.
Variables k key_size_in_bytes : N.
Variable hash : Bytes.t -> N -> Bytes.t.
Implicit Types cct : garbled_circuit_m_t Hash Prng PCFState.

(** [pass_check] reads the two vectors and nothing else. *)
Lemma pass_check_loop_ext cct1 cct2 (n ix : nat) (pass_chk : bool) :
  m_gen_inp_decom cct1 = m_gen_inp_decom cct2 ->
  m_gen_inp_com cct1 = m_gen_inp_com cct2 ->
  pass_check_loop k hash cct1 n ix pass_chk
  = pass_check_loop k hash cct2 n ix pass_chk.
Proof.
  intros Hd Hc. revert ix pass_chk.
  induction n as [| n IH]; intros ix pass_chk; cbn [pass_check_loop];
    [reflexivity |].
  rewrite Hd, Hc.
  destruct (m_gen_inp_decom cct2 !! ix); [| reflexivity].
  destruct (m_gen_inp_com cct2 !! ix); [| reflexivity].
  apply IH.
Qed.

Lemma pass_check_ext cct1 cct2 :
  m_gen_inp_decom cct1 = m_gen_inp_decom cct2 ->
  m_gen_inp_com cct1 = m_gen_inp_com cct2 ->
  pass_check k hash cct1 = pass_check k hash cct2.
Proof.
  intros Hd Hc. unfold pass_check.
  rewrite (pass_check_loop_ext cct1 cct2) by assumption.
  now rewrite Hd, Hc.
Qed.

(** X10: the verdict of [pass_check] is not affected by the other
    operations of the header; [trim_output], [recv], [send] and [init]
    leave it as it was. *)
Theorem pass_check_stable cct (i_data : Bytes.t) :
  pass_check k hash (trim_output cct) = pass_check k hash cct
  /\ pass_check k hash (recv cct i_data) = pass_check k hash cct
  /\ pass_check k hash (snd (send cct)) = pass_check k hash cct
  /\ match init k key_size_in_bytes cct with
     | Some cct' => pass_check k hash cct' = pass_check k hash cct
     | None => True
     end.
Proof.
  repeat split; try (apply pass_check_ext; reflexivity).
  destruct (init k key_size_in_bytes cct) as [cct' |] eqn:E; [| exact I].
  destruct (init_Some_inv k key_size_in_bytes cct cct' E) as (mask & -> & _).
  apply pass_check_ext; reflexivity.
Qed.

(** The verdict at an index of the state with the given vectors. *)
Lemma opens_at_set cct (decoms coms : list Bytes.t) (ix : nat) :
  opens_at k hash (set_m_gen_inp_decom decoms (set_m_gen_inp_com coms cct)) ix
  <-> forall decom com, decoms !! ix = Some decom -> coms !! ix = Some com ->
                        hash decom k = com.
Proof. reflexivity. Qed.

(** X8: verification composes; on commitments and decommitments that
    are concatenations of two matching parts, [pass_check] returns the
    conjunction of the verdicts on the parts. *)
Theorem pass_check_app cct (d1 d2 c1 c2 : list Bytes.t) :
  length d1 = length c1 ->
  length d2 = length c2 ->
  exists b1 b2,
    pass_check k hash (set_m_gen_inp_decom d1 (set_m_gen_inp_com c1 cct)) = Some b1
    /\ pass_check k hash (set_m_gen_inp_decom d2 (set_m_gen_inp_com c2 cct)) = Some b2
    /\ pass_check k hash
         (set_m_gen_inp_decom (d1 ++ d2) (set_m_gen_inp_com (c1 ++ c2) cct))
       = Some (b1 && b2).
Proof.
  intros H1 H2.
  destruct (pass_check_spec k hash (set_m_gen_inp_decom d1 (set_m_gen_inp_com c1 cct)) H1)
    as (b1 & E1 & Hb1).
  destruct (pass_check_spec k hash (set_m_gen_inp_decom d2 (set_m_gen_inp_com c2 cct)) H2)
    as (b2 & E2 & Hb2).
  destruct (pass_check_spec k hash
              (set_m_gen_inp_decom (d1 ++ d2) (set_m_gen_inp_com (c1 ++ c2) cct)))
    as (b & E & Hb).
  { cbn. rewrite !length_app. lia. }
  exists b1, b2. split; [exact E1 |]. split; [exact E2 |].
  rewrite E. f_equal.
  setoid_rewrite opens_at_set in Hb1.
  setoid_rewrite opens_at_set in Hb2.
  setoid_rewrite opens_at_set in Hb.
  apply eq_true_iff_eq. rewrite andb_true_iff, Hb, Hb1, Hb2.
  split.
  - intros Hall. split; intros ix decom com Hd Hc.
    + apply (Hall ix); [now apply lookup_app_l_Some | now apply lookup_app_l_Some].
    + apply (Hall (length d1 + ix)%nat).
      * now rewrite lookup_app_r, Nat.add_comm, Nat.add_sub by lia.
      * now rewrite H1, lookup_app_r, Nat.add_comm, Nat.add_sub by lia.
  - intros [Hl Hr] ix decom com Hd Hc.
    destruct (Nat.lt_ge_cases ix (length d1)) as [Hlt | Hge].
    + rewrite lookup_app_l in Hd by lia. rewrite lookup_app_l in Hc by lia.
      now apply (Hl ix).
    + rewrite lookup_app_r in Hd by lia. rewrite lookup_app_r in Hc by lia.
      rewrite <- H1 in Hc. now apply (Hr (ix - length d1)%nat).
Qed.

(** X9: [pass_check] detects a replaced decommitment; when the one
    stored at an index is replaced by a value whose hash differs from
    the commitment at that index, the result is [false], whatever the
    other pairs are. *)
Theorem pass_check_detects_tampering cct (ix : nat) (decom' com : Bytes.t) :
  length (m_gen_inp_decom cct) = length (m_gen_inp_com cct) ->
  m_gen_inp_com cct !! ix = Some com ->
  hash decom' k <> com ->
  pass_check k hash (set_m_gen_inp_decom (<[ix := decom']> (m_gen_inp_decom cct)) cct)
  = Some false.
Proof.
  intros Hlen Hcom Hne.
  destruct (pass_check_spec k hash
              (set_m_gen_inp_decom (<[ix := decom']> (m_gen_inp_decom cct)) cct))
    as (b & E & Hb).
  { cbn. now rewrite length_insert. }
  rewrite E. f_equal. destruct b; [| reflexivity].
  exfalso. apply Hne.
  destruct Hb as [Hb _]. apply (Hb eq_refl ix); [| exact Hcom].
  cbn. apply list_lookup_insert_eq.
  rewrite Hlen. eapply lookup_lt_Some. exact Hcom.
Qed.

End PassCheckAlgebra.

(** ** More on the transport and on [trim_output] *)

Section TransportAlgebra.
Context {Hash Prng PCFState : Type}.
Implicit Types cct : garbled_circuit_m_t Hash Prng PCFState.

(** X11: a second [recv] overwrites the first, read or not; the state
    is the one the second delivery alone would give. *)
Theorem recv_overwrites cct (d1 d2 : Bytes.t) :
  recv (recv cct d1) d2 = recv cct d2.
Proof. destruct cct. reflexivity. Qed.

(** X12: [send], [recv] and [trim_output] act on separate parts of
    the state and commute pairwise; [send] returns the same bytes before
    and after the other two. *)
Theorem transport_commutes cct (i_data : Bytes.t) :
  fst (send (recv cct i_data)) = fst (send cct)
  /\ snd (send (recv cct i_data)) = recv (snd (send cct)) i_data
  /\ fst (send (trim_output cct)) = fst (send cct)
  /\ snd (send (trim_output cct)) = trim_output (snd (send cct))
  /\ recv (trim_output cct) i_data = trim_output (recv cct i_data).
Proof. destruct cct. repeat split. Qed.

End TransportAlgebra.

Lemma add32_lt (a b : N) : add32 a b < UINT32_MOD.
Proof. unfold add32. apply N.mod_upper_bound. discriminate. Qed.

Lemma add32_wraps (a : N) :
  UINT32_MOD - 7 <= a < UINT32_MOD -> add32 a 7 = a + 7 - UINT32_MOD.
Proof.
  intros [Hlo Hhi]. unfold add32. symmetry.
  apply (N.mod_unique _ _ 1); unfold UINT32_MOD in *; lia.
Qed.

Section TrimOutputEdges.
Context {Hash Prng PCFState : Type}.
Implicit Types cct : garbled_circuit_m_t Hash Prng PCFState.

(** X13: [trim_output] keeps every byte below the new size as it
    was and pads with zero bytes where the buffer was shorter; it does
    not clear the unused high bits of the last byte. *)
Theorem trim_output_bytes cct (j : nat) :
  (N.of_nat j < Bytes.size (m_gen_out (trim_output cct)) ->
   m_gen_out (trim_output cct) !! j
   = Some (default x00 (m_gen_out cct !! j)))
  /\ (N.of_nat j < Bytes.size (m_evl_out (trim_output cct)) ->
      m_evl_out (trim_output cct) !! j
      = Some (default x00 (m_evl_out cct !! j))).
Proof.
  rewrite trim_output_gen_out, trim_output_evl_out, !size_resize.
  unfold Bytes.resize.
  split; intros Hj.
  - destruct (m_gen_out cct !! j) as [x |] eqn:E; cbn [default].
    + rewrite lookup_resize; [exact E | lia | eapply lookup_lt_Some; exact E].
    + apply lookup_resize_new; [now apply lookup_ge_None | lia].
  - destruct (m_evl_out cct !! j) as [x |] eqn:E; cbn [default].
    + rewrite lookup_resize; [exact E | lia | eapply lookup_lt_Some; exact E].
    + apply lookup_resize_new; [now apply lookup_ge_None | lia].
Qed.

(** X14: when an output index is within seven of the top of
    [uint32_t], [trim_output] empties the buffer of that index. *)
Theorem trim_output_wrap_empties cct :
  (UINT32_MOD - 7 <= m_gen_out_ix cct < UINT32_MOD ->
   m_gen_out (trim_output cct) = [])
  /\ (UINT32_MOD - 7 <= m_evl_out_ix cct < UINT32_MOD ->
      m_evl_out (trim_output cct) = []).
Proof.
  rewrite trim_output_gen_out, trim_output_evl_out.
  split; intros [Hlo Hhi]; rewrite add32_wraps by (split; assumption);
    rewrite N.div_small by (unfold UINT32_MOD in *; lia); apply resize_0.
Qed.

(** X15: [trim_output] changes nothing exactly when both output
    buffers already have the sizes it computes. *)
Theorem trim_output_fixed_iff cct :
  trim_output cct = cct
  <-> Bytes.size (m_gen_out cct) = add32 (m_gen_out_ix cct) 7 / 8
      /\ Bytes.size (m_evl_out cct) = add32 (m_evl_out_ix cct) 7 / 8.
Proof.
  split.
  - intros E. split.
    + rewrite <- E at 1. rewrite trim_output_gen_out. apply size_resize.
    + rewrite <- E at 1. rewrite trim_output_evl_out. apply size_resize.
  - intros [Hg He]. destruct cct. unfold trim_output. cbn in *.
    unfold Bytes.size, Bytes.resize in *.
    rewrite <- Hg, <- He, !Nat2N.id, !resize_all. reflexivity.
Qed.

(** X16: after [trim_output] each output buffer is shorter than
    [2^29] bytes, whatever the state was. *)
Theorem trim_output_size_bound cct :
  Bytes.size (m_gen_out (trim_output cct)) < 2 ^ 29
  /\ Bytes.size (m_evl_out (trim_output cct)) < 2 ^ 29.
Proof.
  rewrite trim_output_gen_out, trim_output_evl_out, !size_resize.
  split; apply N.Div0.div_lt_upper_bound; apply add32_lt.
Qed.

End TrimOutputEdges.

(** ** The theorems at concrete states *)

Example audited_passes : pass_check 16 toy_hash audited = Some true.
Proof. reflexivity. Qed.

Example tampered_fails : pass_check 16 toy_hash tampered = Some false.
Proof. reflexivity. Qed.

Example busy_trimmed :
  m_gen_out (trim_output busy) = [x05; x03] /\ m_evl_out (trim_output busy) = [x07].
Proof. split; reflexivity. Qed.

Lemma pass_check_iff_witness :
  length (m_gen_inp_decom audited) = length (m_gen_inp_com audited)
  /\ exists r,
       pass_check 16 toy_hash audited = Some r
       /\ (r = true <->
           forall ix decom com,
             m_gen_inp_decom audited !! ix = Some decom ->
             m_gen_inp_com audited !! ix = Some com ->
             toy_hash decom 16 = com).
Proof.
  split; [reflexivity |].
  apply (pass_check_iff 16 toy_hash audited). reflexivity.
Defined.


Lemma pass_check_empty_witness :
  m_gen_inp_com blank = []
  /\ m_gen_inp_decom blank = []
  /\ pass_check 80 toy_hash blank = Some true.
Proof.
  split; [reflexivity |]. split; [reflexivity |].
  apply (pass_check_empty 80 toy_hash blank); reflexivity.
Defined.

Lemma trim_output_sizes_witness :
  (m_gen_out_ix busy + 7 < UINT32_MOD
   /\ m_evl_out_ix busy + 7 < UINT32_MOD
   /\ m_gen_out_ix busy = 10)
  /\ Bytes.size (m_gen_out (trim_output busy)) = ceil_div8 (m_gen_out_ix busy)
  /\ Bytes.size (m_evl_out (trim_output busy)) = ceil_div8 (m_evl_out_ix busy)
  /\ Bytes.size (m_gen_out (trim_output busy)) = 2.
Proof.
  destruct (trim_output_sizes busy) as (Hgen & Hevl & Hten).
  split; [repeat split |].
  split; [apply Hgen; reflexivity |].
  split; [apply Hevl; reflexivity | apply Hten; reflexivity].
Defined.

(** C4 as stated fails where [m_gen_out_ix + 7] wraps: at the largest
    index the buffer is emptied, and the ceiling is 536870912. *)
Lemma trim_output_wraps :
  Bytes.size (m_gen_out (trim_output full)) = 0
  /\ ceil_div8 (m_gen_out_ix full) = 536870912
  /\ Bytes.size (m_gen_out (trim_output full)) <> ceil_div8 (m_gen_out_ix full).
Proof.
  split; [reflexivity |]. split; [reflexivity |].
  vm_compute. discriminate.
Qed.

Lemma init_resets_witness :
  80 <= 128
  /\ exists cct',
       init 80 10 stale = Some cct'
       /\ m_gate_ix cct' = 0
       /\ m_gen_inp_ix cct' = 0
       /\ m_evl_inp_ix cct' = 0
       /\ m_gen_out_ix cct' = 0
       /\ m_evl_out_ix cct' = 0
       /\ m_gen_inp_hash_ix cct' = m_gen_inp_hash_ix stale
       /\ m_o_bufr cct' = []
       /\ m_clear_mask cct' = N.ones 80
       /\ forall i, N.testbit (m_clear_mask cct') i = (i <? 80).
Proof.
  split; [lia |].
  apply (init_resets 80 10 stale). lia.
Defined.

(** C7 as stated fails on the hash index: [init] returns from [stale]
    with [m_gen_inp_hash_ix] still 5. *)
Lemma init_keeps_hash_ix :
  exists cct',
    init 80 10 stale = Some cct'
    /\ m_gen_inp_hash_ix cct' = 5
    /\ m_gen_inp_hash_ix cct' <> 0.
Proof.
  eexists. split; [vm_compute; reflexivity |].
  split; [reflexivity | discriminate].
Qed.

Example extract_epi8_even_odd :
  _mm_extract_epi8 sixteen_reg 4 = 0x14 /\ _mm_extract_epi8 sixteen_reg 15 = 0x1f.
Proof. split; reflexivity. Qed.

Example reset_keeps_output :
  m_gen_out_ix reset = 0 /\ m_gen_out reset = [x05; x03; x00; x00].
Proof. split; reflexivity. Qed.

Lemma extract_epi8_selects_byte_witness :
  5 < 16
  /\ _mm_extract_epi8 sixteen_reg 5 = (sixteen_reg / 2 ^ (8 * 5)) mod 256.
Proof.
  split; [reflexivity |].
  apply (extract_epi8_selects_byte sixteen_reg 5). reflexivity.
Defined.

Lemma extract_epi8_loadu_witness :
  (16 <= Bytes.size sixteen /\ (5 < 16)%nat /\ sixteen !! 5%nat = Some x15)
  /\ exists x,
       _mm_loadu_si128 sixteen = Some x
       /\ _mm_extract_epi8 x (N.of_nat 5) = Byte.to_N x15.
Proof.
  split; [split; [discriminate | split; [lia | reflexivity]] |].
  apply (extract_epi8_loadu sixteen 5 x15); [discriminate | lia | reflexivity].
Defined.

Lemma init_keeps_witness :
  init 80 10 busy = Some reset
  /\ m_gen_out reset = m_gen_out busy
  /\ m_evl_out reset = m_evl_out busy
  /\ m_i_bufr reset = m_i_bufr busy
  /\ m_i_bufr_ix reset = m_i_bufr_ix busy
  /\ m_gen_inp_mask reset = m_gen_inp_mask busy
  /\ m_gen_inp reset = m_gen_inp busy
  /\ m_evl_inp reset = m_evl_inp busy
  /\ m_gen_inp_com reset = m_gen_inp_com busy
  /\ m_gen_inp_decom reset = m_gen_inp_decom busy
  /\ m_R reset = m_R busy
  /\ m_const_wire reset = m_const_wire busy
  /\ m_ot_keys reset = m_ot_keys busy
  /\ m_prng reset = m_prng busy
  /\ m_hash reset = m_hash busy
  /\ m_bufr reset = m_bufr busy
  /\ m_st reset = m_st busy
  /\ m_gen_inp_cnt reset = m_gen_inp_cnt busy
  /\ m_evl_inp_cnt reset = m_evl_inp_cnt busy
  /\ m_gen_inp_hash_ix reset = m_gen_inp_hash_ix busy.
Proof.
  split; [vm_compute; reflexivity |].
  apply (init_keeps 80 10 busy reset). vm_compute. reflexivity.
Defined.

Lemma init_idempotent_witness :
  init 80 10 busy = Some reset /\ init 80 10 reset = Some reset.
Proof.
  split; [vm_compute; reflexivity |].
  apply (init_idempotent 80 10 busy reset). vm_compute. reflexivity.
Defined.

Lemma init_then_trim_output_witness :
  init 80 10 busy = Some reset
  /\ m_gen_out (trim_output reset) = []
  /\ m_evl_out (trim_output reset) = [].
Proof.
  split; [vm_compute; reflexivity |].
  apply (init_then_trim_output 80 10 busy reset). vm_compute. reflexivity.
Defined.

Lemma pass_check_app_witness :
  (length [[x0a; x0b; x0c]] = length [[x0a; x0b]]
   /\ length [[x02]] = length [[x01; x00]])
  /\ exists b1 b2,
       pass_check 16 toy_hash
         (set_m_gen_inp_decom [[x0a; x0b; x0c]] (set_m_gen_inp_com [[x0a; x0b]] blank))
       = Some b1
       /\ pass_check 16 toy_hash
            (set_m_gen_inp_decom [[x02]] (set_m_gen_inp_com [[x01; x00]] blank))
          = Some b2
       /\ pass_check 16 toy_hash
            (set_m_gen_inp_decom ([[x0a; x0b; x0c]] ++ [[x02]])
               (set_m_gen_inp_com ([[x0a; x0b]] ++ [[x01; x00]]) blank))
          = Some (b1 && b2).
Proof.
  split; [split; reflexivity |].
  apply (pass_check_app 16 toy_hash blank
           [[x0a; x0b; x0c]] [[x02]] [[x0a; x0b]] [[x01; x00]]); reflexivity.
Defined.

Lemma pass_check_detects_tampering_witness :
  (length (m_gen_inp_decom audited) = length (m_gen_inp_com audited)
   /\ m_gen_inp_com audited !! 1%nat = Some [x01; x00]
   /\ toy_hash [x02] 16 <> [x01; x00])
  /\ pass_check 16 toy_hash
       (set_m_gen_inp_decom (<[1%nat := [x02]]> (m_gen_inp_decom audited)) audited)
     = Some false.
Proof.
  split; [split; [reflexivity | split; [reflexivity | discriminate]] |].
  apply (pass_check_detects_tampering 16 toy_hash audited 1 [x02] [x01; x00]);
    [reflexivity | reflexivity | discriminate].
Defined.

Lemma trim_output_bytes_witness :
  (N.of_nat 1 < Bytes.size (m_gen_out (trim_output busy))
   /\ N.of_nat 0 < Bytes.size (m_evl_out (trim_output busy)))
  /\ m_gen_out (trim_output busy) !! 1%nat
     = Some (default x00 (m_gen_out busy !! 1%nat))
  /\ m_evl_out (trim_output busy) !! 0%nat
     = Some (default x00 (m_evl_out busy !! 0%nat)).
Proof.
  split; [split; reflexivity |].
  split.
  - apply (trim_output_bytes busy 1). reflexivity.
  - apply (trim_output_bytes busy 0). reflexivity.
Defined.

Lemma trim_output_wrap_empties_witness :
  (UINT32_MOD - 7 <= m_gen_out_ix brimming < UINT32_MOD
   /\ UINT32_MOD - 7 <= m_evl_out_ix brimming < UINT32_MOD)
  /\ m_gen_out (trim_output brimming) = []
  /\ m_evl_out (trim_output brimming) = [].
Proof.
  split; [split; split; vm_compute; congruence |].
  split; apply (trim_output_wrap_empties brimming); split; vm_compute; congruence.
Defined.
